(** * Audio-Visualizer: the terrain mesh of [src/app.py]

    A shallow embedding of the class [Terrain] of [src/app.py] (its
    constructor, [mesh] and [update]) and the properties of the mesh it
    builds on every frame.

    Numbers.  Python's [float] and NumPy's [float64] are IEEE 754 binary64
    numbers.  The embedding is written once over an interface [Numeric] of
    the arithmetic the program uses, and read at two instances: [binary64]
    (Rocq's primitive floats, the arithmetic the program really runs) and
    [exact] (canonical rationals, the arithmetic without rounding).

    Libraries outside the repository.  [OpenSimplex(seed).noise2] is a
    parameter of the constructor's model; [np.arange], [np.array],
    [reshape], [struct.unpack] are modelled from their documented behaviour
    under NumPy 1.x, the version line whose promotion rules let line 89 run
    ([int8] array [+ 128] gives an [int16] array there). *)

From Stdlib Require Import ZArith List Bool Lia.
From Stdlib.Strings Require Import Byte.
From Stdlib Require Import QArith Qcanon Qround Lqa.
From Stdlib Require Import PrimFloat FloatOps SpecFloat Uint63.
Import ListNotations.

Set Warnings "-inexact-float".
Local Open Scope Z_scope.

(** ** Python values the program handles *)

(** The exceptions the modelled code can raise. *)
Inductive exn : Type :=
| StructError   (* struct.error: buffer of the wrong size *)
| ValueError    (* reshape to a shape of another size; arange without a length *)
| IndexError.   (* index outside an array *)

Inductive result (A : Type) : Type :=
| Ok (a : A)
| Raise (e : exn).
Arguments Ok {A} a.
Arguments Raise {A} e.

(** A computation that may raise and that allocates array objects: the
    state is the next free object identity. *)
Definition Py (A : Type) : Type := nat -> result (A * nat).

Definition ret {A} (a : A) : Py A := fun n => Ok (a, n).

Definition bind {A B} (m : Py A) (k : A -> Py B) : Py B :=
  fun n => match m n with
           | Ok (a, n') => k a n'
           | Raise e => Raise e
           end.

Definition lift {A} (r : result A) : Py A :=
  fun n => match r with
           | Ok a => Ok (a, n)
           | Raise e => Raise e
           end.

Declare Scope py_scope.
Delimit Scope py_scope with py.
Notation "x <- m ;; k" := (bind m (fun x => k))
  (at level 61, m at next level, right associativity) : py_scope.
Notation "' pat <- m ;; k" := (bind m (fun x => match x with pat => k end))
  (at level 61, pat pattern, m at next level, right associativity) : py_scope.

(** An array object: an identity (what Python's [is] compares) and a
    payload. *)
Record ndarray (A : Type) : Type := { ident : nat; data : A }.
Arguments ident {A} _.
Arguments data {A} _.

(** [np.array(v)]: a new array object holding [v].  Only these arrays are
    given an identity: what arithmetic, slicing and [reshape] make never
    leaves [mesh]. *)
Definition np_array {A} (v : A) : Py (ndarray A) :=
  fun n => Ok ({| ident := n; data := v |}, S n).

(** A two-dimensional array in row-major order. *)
Record matrix (A : Type) : Type := { rows : Z; cols : Z; cells : list A }.
Arguments rows {A} _.
Arguments cols {A} _.
Arguments cells {A} _.

Definition len {A} (l : list A) : Z := Z.of_nat (length l).

(** [range(n)]: empty when [n <= 0]. *)
Definition range (n : Z) : list Z := map Z.of_nat (seq 0 (Z.to_nat n)).

Definition enumerate {A} (l : list A) : list (Z * A) :=
  combine (range (len l)) l.

(** [a.reshape((r, c))] *)
Definition reshape {A} (a : list A) (r c : Z) : result (matrix A) :=
  if len a =? r * c then Ok {| rows := r; cols := c; cells := a |}
  else Raise ValueError.

(** [m[i][j]] for indices that are not negative. *)
Definition index2 {A} (m : matrix A) (i j : Z) : result A :=
  if (0 <=? i) && (i <? rows m) && (0 <=? j) && (j <? cols m) then
    match nth_error (cells m) (Z.to_nat (i * cols m + j)) with
    | Some a => Ok a
    | None => Raise IndexError
    end
  else Raise IndexError.

(** [a[::2]] *)
Fixpoint every_other {A} (l : list A) : list A :=
  match l with
  | [] => []
  | x :: rest => x :: match rest with
                      | [] => []
                      | _ :: rest' => every_other rest'
                      end
  end.

Fixpoint traverse {A B} (f : A -> result B) (l : list A) : result (list B) :=
  match l with
  | [] => Ok []
  | x :: rest =>
      match f x with
      | Ok y => match traverse f rest with
                | Ok ys => Ok (y :: ys)
                | Raise e => Raise e
                end
      | Raise e => Raise e
      end
  end.

(** Fixed-width integers: the value an integer has once stored with
    [bits] bits, two's complement. *)
Definition wrap (bits : Z) (v : Z) : Z :=
  (v + 2 ^ (bits - 1)) mod 2 ^ bits - 2 ^ (bits - 1).

Definition int8 := wrap 8.
Definition int16 := wrap 16.
Definition int32 := wrap 32.

Definition bytes := list byte.

(** [struct.unpack(str(count) + "B", buffer)] *)
Definition struct_unpack_B (count : Z) (buffer : bytes) : result (list Z) :=
  if len buffer =? count then Ok (map (fun b => Z.of_N (Byte.to_N b)) buffer)
  else Raise StructError.

(** ** The arithmetic of the program *)

Class Numeric (F : Type) : Type := {
  of_Z : Z -> F;          (* an int where a float is needed *)
  lit : Q -> F;           (* a decimal literal of the source *)
  add : F -> F -> F;
  sub : F -> F -> F;
  mul : F -> F -> F;
  div : F -> F -> F;
  ceil : F -> option Z    (* no value for a NaN or an infinity *)
}.

Module Binary64.

(** Exact for [|z| < 2^53], which covers every integer of the program. *)
Definition float_of_Z (z : Z) : float :=
  match z with
  | Z0 => PrimFloat.zero
  | Zpos p => PrimFloat.of_uint63 (Uint63.of_Z (Zpos p))
  | Zneg p => PrimFloat.opp (PrimFloat.of_uint63 (Uint63.of_Z (Zpos p)))
  end.

(** A decimal literal [n/d] is the binary64 number nearest to it: the
    correctly rounded quotient of the two integers. *)
Definition float_lit (q : Q) : float :=
  PrimFloat.div (float_of_Z (Qnum q)) (float_of_Z (Zpos (Qden q))).

Definition float_ceil (f : float) : option Z :=
  match Prim2SF f with
  | S754_zero _ => Some 0
  | S754_finite s m e =>
      let num := if s then Zneg m else Zpos m in
      Some (if 0 <=? e then num * 2 ^ e else - ((- num) / 2 ^ (- e)))
  | S754_infinity _ | S754_nan => None
  end.

End Binary64.

#[export] Instance binary64 : Numeric float := {|
  of_Z := Binary64.float_of_Z;
  lit := Binary64.float_lit;
  add := PrimFloat.add;
  sub := PrimFloat.sub;
  mul := PrimFloat.mul;
  div := PrimFloat.div;
  ceil := Binary64.float_ceil
|}.

#[export] Instance exact : Numeric Qc := {|
  of_Z := fun z => Q2Qc (inject_Z z);
  lit := Q2Qc;
  add := Qcplus;
  sub := Qcminus;
  mul := Qcmult;
  div := Qcdiv;
  ceil := fun q => Some (Qceiling q)
|}.

(** [np.arange(start, stop, step)] on floats: the length is the ceiling of
    [(stop - start) / step]; the first two elements are [start] and
    [start + step], the others [start + i * delta] with [delta] the
    difference of the first two.  A quotient that is a NaN or infinite has
    no ceiling and NumPy raises (the model has one exception for its
    [ValueError] and [OverflowError]). *)
Definition arange {F} `{Numeric F} (start stop step : F) : result (list F) :=
  match ceil (div (sub stop start) step) with
  | None => Raise ValueError
  | Some length =>
      let next := add start step in
      let delta := sub next start in
      Ok (map (fun i => if i =? 0 then start
                        else if i =? 1 then next
                        else add start (mul (of_Z i) delta))
              (range length))
  end.

(** ** The class [Terrain] *)

Module Terrain.

(** The arguments of [self.p.open(...)], lines 51-58. *)
Record stream_config : Type := {
  format : Z;             (* bits of a sample: pyaudio.paInt16 *)
  channels : Z;
  rate : Z;
  input : bool;
  output : bool;
  frames_per_buffer : Z
}.

Definition vertex (F : Type) : Type := F * F * F.
Definition face : Type := Z * Z * Z.
Definition color (F : Type) : Type := F * F * F * F.

Definition mesh_arrays (F : Type) : Type :=
  ndarray (list (vertex F)) * ndarray (list face) * ndarray (list (color F)).

(** What the mesh item [self.mountains] was last given. *)
Record mesh_item (F : Type) : Type := {
  vertexes : ndarray (list (vertex F));
  faces : ndarray (list face);
  faceColors : option (ndarray (list (color F)))
}.
Arguments vertexes {F} _.
Arguments faces {F} _.
Arguments faceColors {F} _.

Record t (F : Type) : Type := {
  nsteps : F;
  offset : F;
  ypoints : list F;
  xpoints : list F;
  nfaces : Z;
  RATE : Z;
  CHUNK : Z;
  stream : stream_config;
  noise : F -> F -> F;            (* self.noise.noise2 *)
  mountains : option (mesh_item F)
}.
Arguments nsteps {F} _.
Arguments offset {F} _.
Arguments ypoints {F} _.
Arguments xpoints {F} _.
Arguments nfaces {F} _.
Arguments RATE {F} _.
Arguments CHUNK {F} _.
Arguments stream {F} _.
Arguments noise {F} _.
Arguments mountains {F} _.

Section WithNumbers.

Context {F : Type} `{Numeric F}.

Abbreviation t := (t F).
Abbreviation vertex := (vertex F).
Abbreviation color := (color F).

Definition set_offset (self : t) (v : F) : t :=
  {| nsteps := nsteps self; offset := v; ypoints := ypoints self;
     xpoints := xpoints self; nfaces := nfaces self; RATE := RATE self;
     CHUNK := CHUNK self; stream := stream self; noise := noise self;
     mountains := mountains self |}.

Definition set_mountains (self : t) (v : mesh_item F) : t :=
  {| nsteps := nsteps self; offset := offset self; ypoints := ypoints self;
     xpoints := xpoints self; nfaces := nfaces self; RATE := RATE self;
     CHUNK := CHUNK self; stream := stream self; noise := noise self;
     mountains := Some v |}.

(** Lines 87-95: the height multipliers of the cells.  The cells of the
    default array are the integer 1; NumPy turns one into a float when
    line 104 multiplies it by a float, the model when the array is
    built. *)
Definition amplitude (self : t) (waveform : option bytes) : Py (matrix F) :=
  (match waveform with
   | Some waveform =>
       waveform <- lift (struct_unpack_B (2 * CHUNK self) waveform) ;;
       signed <- np_array (map int8 waveform) ;;
       let waveform := map (fun v => int16 (v + 128)) (every_other (data signed)) in
       widened <- np_array (map int32 waveform) ;;
       let waveform := map (fun v => int32 (v - 128)) (data widened) in
       let waveform := map (fun v => mul (of_Z v) (lit 0.02)) waveform in
       lift (reshape waveform (len (xpoints self)) (len (ypoints self)))
   | None =>
       ones <- np_array (repeat (of_Z 1) 1024) ;;
       lift (reshape (data ones) (len (xpoints self)) (len (ypoints self)))
   end)%py.

(** Lines 105-107: the noise value of a cell. *)
Definition noise_sample (self : t) (xid yid : Z) : F :=
  noise self (add (div (of_Z xid) (of_Z 5)) (Terrain.offset self))
             (add (div (of_Z yid) (of_Z 5)) (Terrain.offset self)).

(** Lines 100-111: the list comprehension. *)
Definition vertices (self : t) (waveform : matrix F) : result (list vertex) :=
  match
    traverse
      (fun '(xid, x) =>
         traverse
           (fun '(yid, y) =>
              match index2 waveform xid yid with
              | Ok a => Ok (x, y, mul a (noise_sample self xid yid))
              | Raise e => Raise e
              end)
           (enumerate (ypoints self)))
      (enumerate (xpoints self))
  with
  | Ok per_x => Ok (concat per_x)
  | Raise e => Raise e
  end.

(** Lines 114-132: the two loops, appending to [faces] and [colors]. *)
Definition triangulate (nfaces : Z) : list face * list color :=
  fold_left
    (fun acc yid =>
       let yoffset := yid * nfaces in
       fold_left
         (fun '(faces, colors) xid =>
            (faces
               ++ [(xid + yoffset, xid + yoffset + nfaces, xid + yoffset + nfaces + 1)]
               ++ [(xid + yoffset, xid + yoffset + 1, xid + yoffset + nfaces + 1)],
             colors
               ++ [(lit 0.1, lit 0.3, of_Z 0, lit 0.35)]
               ++ [(lit 0.09, lit 0.3, of_Z 0, lit 0.35)]))
         (range (nfaces - 1)) acc)
    (range (nfaces - 1)) ([], []).

(** [Terrain.mesh], lines 75-137. *)
Definition mesh (self : t) (offset height : F) (waveform : option bytes)
  : Py (mesh_arrays F) :=
  (waveform <- amplitude self waveform ;;
   rows <- lift (vertices self waveform) ;;
   verts <- np_array rows ;;
   let '(faces, colors) := triangulate (nfaces self) in
   faces <- np_array faces ;;
   colors <- np_array colors ;;
   ret (verts, faces, colors))%py.

(** [Terrain.update], lines 149-152; [wf_data] is what
    [self.stream.read(self.CHUNK)] returned. *)
Definition update (self : t) (wf_data : bytes) : Py t :=
  ('(verts, faces, colors) <-
      mesh self (Terrain.offset self) (lit 1.5) (Some wf_data) ;;
   let self :=
     set_mountains self
       {| vertexes := verts; faces := faces; faceColors := Some colors |} in
   ret (set_offset self (sub (Terrain.offset self) (lit 0.059))))%py.

(** Lines 41-61 of [__init__], for a step [nsteps]. *)
Definition configure (OpenSimplex : Z -> F -> F -> F) (nsteps : F) : result t :=
  match arange (of_Z (-20)) (add (of_Z 20) nsteps) nsteps with
  | Raise e => Raise e
  | Ok ypoints =>
      match arange (of_Z (-20)) (add (of_Z 20) nsteps) nsteps with
      | Raise e => Raise e
      | Ok xpoints =>
          let CHUNK := len xpoints * len ypoints in
          Ok {| nsteps := nsteps;
                offset := of_Z 0;
                ypoints := ypoints;
                xpoints := xpoints;
                nfaces := len ypoints;
                RATE := 44100;
                CHUNK := CHUNK;
                stream := {| format := 16; channels := 1; rate := 44100;
                             input := true; output := true;
                             frames_per_buffer := CHUNK |};
                noise := OpenSimplex 0;
                mountains := None |}
      end
  end.

(** Lines 41-73 of [__init__], for a step [nsteps]. *)
Definition construct (OpenSimplex : Z -> F -> F -> F) (nsteps : F) : Py t :=
  (self <- lift (configure OpenSimplex nsteps) ;;
   '(verts, faces, colors) <- mesh self (of_Z 0) (lit 1.5) None ;;
   ret (set_mountains self
          {| vertexes := verts; faces := faces; faceColors := None |}))%py.

(** [Terrain.__init__]: line 41 fixes the step. *)
Definition __init__ (OpenSimplex : Z -> F -> F -> F) : Py t :=
  construct OpenSimplex (lit 1.3).

(** The frames of a run: one [update] for each buffer read. *)
Fixpoint ticks (self : t) (reads : list bytes) : Py t :=
  match reads with
  | [] => ret self
  | wf_data :: later => (self' <- update self wf_data ;; ticks self' later)%py
  end.

End WithNumbers.
End Terrain.

(** ** Definitions the statements use *)

(** A matrix whose cells fill its shape. *)
Definition filled {F} (m : matrix F) : Prop :=
  0 <= rows m /\ 0 <= cols m /\ len (cells m) = rows m * cols m.

(** The cell a vertex reads, as a total function. *)
Definition cell {F} `{Numeric F} (m : matrix F) (i j : Z) : F :=
  match index2 m i j with
  | Ok a => a
  | Raise _ => of_Z 0
  end.

(** The comprehension of lines 100-111, one list for each [x]. *)
Definition grid_rows {F} `{Numeric F} (self : Terrain.t F) (m : matrix F)
  : list (list (Terrain.vertex F)) :=
  map (fun '(xid, x) =>
         map (fun '(yid, y) =>
                (x, y, mul (cell m xid yid) (Terrain.noise_sample self xid yid)))
             (enumerate (Terrain.ypoints self)))
      (enumerate (Terrain.xpoints self)).

(** The loops of lines 114-132 as two flat maps. *)
Definition quad_faces (nfaces yid xid : Z) : list Terrain.face :=
  let yoffset := yid * nfaces in
  [(xid + yoffset, xid + yoffset + nfaces, xid + yoffset + nfaces + 1);
   (xid + yoffset, xid + yoffset + 1, xid + yoffset + nfaces + 1)].

Definition quad_colors {F} `{Numeric F} : list (Terrain.color F) :=
  [(lit 0.1, lit 0.3, of_Z 0, lit 0.35); (lit 0.09, lit 0.3, of_Z 0, lit 0.35)].

Definition byte_value (b : byte) : Z := Z.of_N (Byte.to_N b).

(** The cells lines 88-91 compute from a buffer. *)
Definition decoded {F} `{Numeric F} (wf : bytes) : list F :=
  map (fun b => mul (of_Z (int8 (byte_value b))) (lit 0.02)) (every_other wf).

(** A stand-in for [OpenSimplex(seed).noise2] that returns the first
    coordinate it is asked about, so that a height shows where the noise was
    sampled. *)
Definition probe_noise : Z -> float -> float -> float := fun _ x _ => x.

Definition no_terrain : Terrain.t float :=
  {| Terrain.nsteps := 0%float; Terrain.offset := 0%float;
     Terrain.ypoints := []; Terrain.xpoints := []; Terrain.nfaces := 0;
     Terrain.RATE := 0; Terrain.CHUNK := 0;
     Terrain.stream := {| Terrain.format := 0; Terrain.channels := 0;
                          Terrain.rate := 0; Terrain.input := false;
                          Terrain.output := false;
                          Terrain.frames_per_buffer := 0 |};
     Terrain.noise := probe_noise 0; Terrain.mountains := None |}.

(** The terrain [Terrain()] builds under binary64 arithmetic, and the next
    free object identity. *)
Definition started : Terrain.t float * nat :=
  Eval vm_compute in
    match Terrain.__init__ probe_noise 0%nat with
    | Ok r => r
    | Raise _ => (no_terrain, 0%nat)
    end.

Definition first_terrain : Terrain.t float := fst started.

(** The height of the first vertex of a mesh. *)
Definition first_height (r : result (Terrain.mesh_arrays float * nat)) : option float :=
  match r with
  | Ok ((verts, _, _), _) =>
      match data verts with
      | (_, _, z) :: _ => Some z
      | [] => None
      end
  | Raise _ => None
  end.

(** A silent buffer: [2 * CHUNK] zero bytes. *)
Definition silence : bytes := repeat x00 2048.

Definition square {F} (self : Terrain.t F) : Prop :=
  len (Terrain.xpoints self) = Terrain.nfaces self
  /\ len (Terrain.ypoints self) = Terrain.nfaces self
  /\ Terrain.CHUNK self = Terrain.nfaces self * Terrain.nfaces self.

(** The calls [mesh] answers: no waveform on a grid of 1024 cells, or a
    buffer of two bytes for each of the [CHUNK] samples. *)
Definition accepted {F} (self : Terrain.t F) (waveform : option bytes) : Prop :=
  match waveform with
  | Some wf => len wf = 2 * Terrain.CHUNK self
  | None => Terrain.nfaces self * Terrain.nfaces self = 1024
  end.

(** The words of the specification for a raw sample: two bytes, low byte
    first, read as a signed 16-bit number; and the low byte of a number. *)
Definition pcm16 (lo hi : byte) : Z := int16 (byte_value lo + 256 * byte_value hi).

Definition low_byte (sample : Z) : Z := sample mod 256.

(** The noise value the specification describes for a cell: the noise at
    the grid coordinates [x] and [y] of the cell divided by 5, shifted by the
    offset given to [mesh]. *)
Definition spec_sample {F} `{Numeric F} (self : Terrain.t F) (x y offset : F) : F :=
  Terrain.noise self (add (div x (of_Z 5)) offset) (add (div y (of_Z 5)) offset).

(** A buffer that is not silent. *)
Definition hum : bytes := repeat x10 2048.

(** The fields a frame leaves alone. *)
Definition same_grid {F} (a b : Terrain.t F) : Prop :=
  Terrain.xpoints a = Terrain.xpoints b
  /\ Terrain.ypoints a = Terrain.ypoints b
  /\ Terrain.nfaces a = Terrain.nfaces b
  /\ Terrain.CHUNK a = Terrain.CHUNK b
  /\ Terrain.stream a = Terrain.stream b
  /\ Terrain.noise a = Terrain.noise b.





Definition configured : Terrain.t float :=
  Eval vm_compute in
    match Terrain.configure probe_noise (lit 1.3) with
    | Ok self => self
    | Raise _ => no_terrain
    end.

(** A buffer of loud samples whose low bytes are all zero: 1024 times the
    16-bit sample 0x7f00. *)
Definition rumble : bytes := flat_map (fun _ : nat => [x00; x7f]) (seq 0 1024).

(** The fields lines 41-61 set for a step of 2: a grid of 21 by 21 points. *)
Definition coarse : Terrain.t float :=
  Eval vm_compute in
    match Terrain.configure probe_noise (of_Z 2) with
    | Ok self => self
    | Raise _ => no_terrain
    end.

(** Where a vertex lies on the ground. *)
Definition ground {F} (v : Terrain.vertex F) : F * F :=
  let '(x, y, _) := v in (x, y).

(** ** Lists, ranges and the error monad *)

Lemma len_nonneg {A} (l : list A) : 0 <= len l.
Proof. unfold len. lia. Qed.

Lemma length_range (n : Z) : length (range n) = Z.to_nat n.
Proof. unfold range. now rewrite length_map, length_seq. Qed.

Lemma nth_error_range (n : Z) (i : nat) :
  (i < Z.to_nat n)%nat -> nth_error (range n) i = Some (Z.of_nat i).
Proof.
  intros Hi. unfold range.
  rewrite nth_error_map, nth_error_seq.
  destruct (Nat.ltb_spec i (Z.to_nat n)); [reflexivity | lia].
Qed.

Lemma in_range (n i : Z) : In i (range n) <-> 0 <= i < n.
Proof.
  unfold range. rewrite in_map_iff. split.
  - intros [k [<- Hk]]. apply in_seq in Hk. lia.
  - intros Hi. exists (Z.to_nat i). split; [lia | apply in_seq; lia].
Qed.

Lemma range_len {A} (l : list A) : length (range (len l)) = length l.
Proof. rewrite length_range. unfold len. lia. Qed.

Lemma length_enumerate {A} (l : list A) : length (enumerate l) = length l.
Proof. unfold enumerate. rewrite length_combine, range_len. lia. Qed.

Lemma nth_error_combine {A B} (r : list A) (l : list B) (i : nat) (v : A) (a : B) :
  nth_error r i = Some v -> nth_error l i = Some a ->
  nth_error (combine r l) i = Some (v, a).
Proof.
  revert r l. induction i as [| i IH]; intros [| y r] [| x l] Hr Ha;
    simpl in *; try discriminate.
  - congruence.
  - now apply IH.
Qed.

Lemma nth_error_enumerate {A} (l : list A) (i : nat) (a : A) :
  nth_error l i = Some a ->
  nth_error (enumerate l) i = Some (Z.of_nat i, a).
Proof.
  intros Ha. unfold enumerate.
  assert (Hi : (i < length l)%nat) by (apply nth_error_Some; congruence).
  apply nth_error_combine; [| assumption].
  apply nth_error_range. unfold len. lia.
Qed.

Lemma in_enumerate {A} (l : list A) (i : Z) (a : A) :
  In (i, a) (enumerate l) ->
  0 <= i < len l /\ nth_error l (Z.to_nat i) = Some a.
Proof.
  intros Hin. apply In_nth_error in Hin. destruct Hin as [k Hk].
  assert (Hlt : (k < length l)%nat).
  { rewrite <- (length_enumerate l). apply nth_error_Some. congruence. }
  destruct (nth_error l k) as [b |] eqn:Hb.
  - rewrite (nth_error_enumerate l k b Hb) in Hk.
    injection Hk as <- <-. unfold len. rewrite Nat2Z.id. split; [lia | assumption].
  - apply nth_error_None in Hb. lia.
Qed.

Lemma traverse_map {A B} (f : A -> result B) (g : A -> B) (l : list A) :
  (forall x, In x l -> f x = Ok (g x)) -> traverse f l = Ok (map g l).
Proof.
  induction l as [| x l IH]; intros Hf; simpl; [reflexivity |].
  rewrite (Hf x (or_introl eq_refl)), IH; [reflexivity |].
  intros y Hy. apply Hf. now right.
Qed.

Lemma nth_error_concat_uniform {A} (c : nat) (ls : list (list A)) (i j : nat) (row : list A) :
  Forall (fun r => length r = c) ls ->
  nth_error ls i = Some row -> (j < c)%nat ->
  nth_error (concat ls) (i * c + j) = nth_error row j.
Proof.
  intros Hall. revert i. induction Hall as [| r ls Hr Hall IH]; intros i Hi Hj.
  - destruct i; discriminate.
  - destruct i as [| i]; simpl in *.
    + injection Hi as ->. rewrite nth_error_app1 by lia. reflexivity.
    + rewrite nth_error_app2 by lia.
      replace (c + i * c + j - length r)%nat with (i * c + j)%nat by lia.
      now apply IH.
Qed.

Lemma length_concat_uniform {A} (c : nat) (ls : list (list A)) :
  Forall (fun r => length r = c) ls -> length (concat ls) = (length ls * c)%nat.
Proof.
  induction 1 as [| r ls Hr Hall IH]; simpl; [reflexivity |].
  rewrite length_app, IH, Hr. reflexivity.
Qed.

Lemma length_flat_map_uniform {A B} (c : nat) (f : A -> list B) (l : list A) :
  (forall x, In x l -> length (f x) = c) ->
  length (flat_map f l) = (length l * c)%nat.
Proof.
  induction l as [| x l IH]; intros Hf; simpl; [reflexivity |].
  rewrite length_app, IH, (Hf x (or_introl eq_refl)); [reflexivity |].
  intros y Hy. apply Hf. now right.
Qed.

Lemma nth_error_every_other {A} (l : list A) (k : nat) :
  nth_error (every_other l) k = nth_error l (2 * k).
Proof.
  revert l. induction k as [| k IH]; intros l.
  - destruct l; reflexivity.
  - destruct l as [| x [| y l]]; simpl.
    + reflexivity.
    + destruct k; reflexivity.
    + rewrite IH. replace (k + S (k + 0))%nat with (S (2 * k)) by lia. reflexivity.
Qed.

Lemma length_every_other {A} (l : list A) (c : nat) :
  length l = (2 * c)%nat -> length (every_other l) = c.
Proof.
  revert l. induction c as [| c IH]; intros l Hl.
  - destruct l; [reflexivity | discriminate].
  - destruct l as [| x [| y l]]; simpl in *; try lia.
    f_equal. apply IH. lia.
Qed.

(** What a bind that succeeds went through. *)
Lemma bind_Ok {A B} (m : Py A) (k : A -> Py B) (n n' : nat) (b : B) :
  bind m k n = Ok (b, n') <->
  exists a n1, m n = Ok (a, n1) /\ k a n1 = Ok (b, n').
Proof.
  unfold bind. split.
  - destruct (m n) as [[a n1] | e]; [| discriminate].
    intros Hk. now exists a, n1.
  - intros [a [n1 [-> Hk]]]. exact Hk.
Qed.

(** ** What [mesh] computes *)

Section MeshFacts.

Context {F : Type} `{Numeric F}.

Implicit Types (self : Terrain.t F) (m : matrix F).

Lemma reshape_Ok {A} (a : list A) (r c : Z) :
  len a = r * c -> reshape a r c = Ok {| rows := r; cols := c; cells := a |}.
Proof. intros Hl. unfold reshape. now rewrite (proj2 (Z.eqb_eq _ _) Hl). Qed.

Lemma index2_Ok m (i j : nat) :
  filled m -> Z.of_nat i < rows m -> Z.of_nat j < cols m ->
  exists a,
    index2 m (Z.of_nat i) (Z.of_nat j) = Ok a /\
    nth_error (cells m) (i * Z.to_nat (cols m) + j) = Some a.
Proof.
  intros (Hr & Hc & Hlen) Hi Hj. unfold index2.
  replace ((0 <=? Z.of_nat i) && (Z.of_nat i <? rows m)
           && (0 <=? Z.of_nat j) && (Z.of_nat j <? cols m)) with true
    by (symmetry; rewrite !andb_true_iff; repeat split;
        first [apply Z.leb_le | apply Z.ltb_lt]; lia).
  replace (Z.to_nat (Z.of_nat i * cols m + Z.of_nat j))
    with (i * Z.to_nat (cols m) + j)%nat by nia.
  destruct (nth_error (cells m) (i * Z.to_nat (cols m) + j)) as [a |] eqn:Ha.
  - now exists a.
  - apply nth_error_None in Ha. unfold len in Hlen. nia.
Qed.

Lemma vertices_Ok self m :
  filled m ->
  rows m = len (Terrain.xpoints self) ->
  cols m = len (Terrain.ypoints self) ->
  Terrain.vertices self m = Ok (concat (grid_rows self m)).
Proof.
  intros Hm Hr Hc. unfold Terrain.vertices, grid_rows.
  erewrite traverse_map; [reflexivity |].
  intros [xid x] Hx. apply in_enumerate in Hx. destruct Hx as [Hx _].
  apply traverse_map.
  intros [yid y] Hy. apply in_enumerate in Hy. destruct Hy as [Hy _].
  unfold cell.
  destruct (index2_Ok m (Z.to_nat xid) (Z.to_nat yid) Hm) as [a [Ha _]];
    try lia.
  rewrite !Z2Nat.id in Ha by lia. now rewrite Ha.
Qed.

Lemma grid_rows_uniform self m :
  Forall (fun r => length r = length (Terrain.ypoints self)) (grid_rows self m).
Proof.
  unfold grid_rows. apply Forall_forall. intros r Hr.
  apply in_map_iff in Hr. destruct Hr as [[xid x] [<- _]].
  now rewrite length_map, length_enumerate.
Qed.

Lemma length_grid self m :
  length (concat (grid_rows self m))
  = (length (Terrain.xpoints self) * length (Terrain.ypoints self))%nat.
Proof.
  rewrite (length_concat_uniform _ _ (grid_rows_uniform self m)).
  unfold grid_rows. now rewrite length_map, length_enumerate.
Qed.

Lemma nth_error_grid self m (i j : nat) (x y : F) :
  nth_error (Terrain.xpoints self) i = Some x ->
  nth_error (Terrain.ypoints self) j = Some y ->
  nth_error (concat (grid_rows self m)) (i * length (Terrain.ypoints self) + j)
  = Some (x, y, mul (cell m (Z.of_nat i) (Z.of_nat j))
                    (Terrain.noise_sample self (Z.of_nat i) (Z.of_nat j))).
Proof.
  intros Hx Hy.
  assert (Hj : (j < length (Terrain.ypoints self))%nat)
    by (apply nth_error_Some; congruence).
  erewrite (nth_error_concat_uniform _ _ i j _ (grid_rows_uniform self m));
    [| | exact Hj].
  2:{ unfold grid_rows. rewrite nth_error_map.
      rewrite (nth_error_enumerate _ _ _ Hx). reflexivity. }
  rewrite nth_error_map, (nth_error_enumerate _ _ _ Hy). reflexivity.
Qed.

Lemma fold_left_appends {A B C} (f : A -> list B) (g : A -> list C)
      (l : list A) (acc : list B * list C) :
  fold_left (fun '(bs, cs) a => (bs ++ f a, cs ++ g a)) l acc
  = (fst acc ++ flat_map f l, snd acc ++ flat_map g l).
Proof.
  revert acc. induction l as [| a l IH]; intros [bs cs]; simpl.
  - now rewrite !app_nil_r.
  - rewrite IH. simpl. now rewrite <- !app_assoc.
Qed.

Lemma fold_left_pointwise {A B} (f g : A -> B -> A) (l : list B) (acc : A) :
  (forall a b, f a b = g a b) -> fold_left f l acc = fold_left g l acc.
Proof.
  intros Hfg. revert acc. induction l as [| b l IH]; intros acc; simpl.
  - reflexivity.
  - now rewrite Hfg, IH.
Qed.

Lemma triangulate_eq (nfaces : Z) :
  Terrain.triangulate (F:=F) nfaces
  = (flat_map (fun yid => flat_map (quad_faces nfaces yid) (range (nfaces - 1)))
              (range (nfaces - 1)),
     flat_map (fun _ : Z => flat_map (fun _ : Z => quad_colors) (range (nfaces - 1)))
              (range (nfaces - 1))).
Proof.
  unfold Terrain.triangulate.
  transitivity
    (fold_left
       (fun '(bs, cs) yid =>
          (bs ++ flat_map (quad_faces nfaces yid) (range (nfaces - 1)),
           cs ++ flat_map (fun _ : Z => quad_colors) (range (nfaces - 1))))
       (range (nfaces - 1)) (@nil Terrain.face, @nil (Terrain.color F))).
  - apply fold_left_pointwise. intros [bs cs] yid.
    exact (fold_left_appends (quad_faces nfaces yid) (fun _ => quad_colors)
                             (range (nfaces - 1)) (bs, cs)).
  - now rewrite fold_left_appends.
Qed.

(** *** The height multipliers *)

Lemma every_other_map {A B} (f : A -> B) (l : list A) :
  every_other (map f l) = map f (every_other l).
Proof.
  assert (Hboth : forall l : list A,
             every_other (map f l) = map f (every_other l)
             /\ forall x, every_other (map f (x :: l)) = map f (every_other (x :: l))).
  { induction l0 as [| y l0 [IH1 IH2]]; split; try reflexivity.
    - apply IH2.
    - intros x. simpl. f_equal. exact IH1. }
  apply Hboth.
Qed.

Lemma byte_value_range (b : byte) : 0 <= byte_value b < 256.
Proof. unfold byte_value. pose proof (Byte.to_N_bounded b). lia. Qed.

Lemma int8_range (v : Z) : -128 <= int8 v < 128.
Proof.
  unfold int8, wrap. change (2 ^ (8 - 1)) with 128. change (2 ^ 8) with 256.
  pose proof (Z.mod_pos_bound (v + 128) 256). lia.
Qed.

(** Lines 89-90: the shift by 128, the widening and the shift back leave
    the signed byte as it was. *)
Lemma shift_widen_unshift (v : Z) :
  int32 (int32 (int16 (int8 v + 128)) - 128) = int8 v.
Proof.
  pose proof (int8_range v) as Hv.
  assert (H16 : int16 (int8 v + 128) = int8 v + 128).
  { unfold int16, wrap. change (2 ^ (16 - 1)) with 32768.
    change (2 ^ 16) with 65536. rewrite Z.mod_small; lia. }
  assert (H32 : forall w, -256 <= w < 256 -> int32 w = w).
  { intros w Hw. unfold int32, wrap. change (2 ^ (32 - 1)) with 2147483648.
    change (2 ^ 32) with 4294967296. rewrite Z.mod_small; lia. }
  rewrite H16, (H32 (int8 v + 128)), H32; lia.
Qed.

Lemma amplitude_Some self (wf : bytes) (n : nat) :
  len wf = 2 * Terrain.CHUNK self ->
  Terrain.CHUNK self = len (Terrain.xpoints self) * len (Terrain.ypoints self) ->
  Terrain.amplitude self (Some wf) n
  = Ok ({| rows := len (Terrain.xpoints self);
           cols := len (Terrain.ypoints self);
           cells := decoded wf |}, S (S n)).
Proof.
  intros Hlen Hchunk.
  unfold Terrain.amplitude, bind, lift, struct_unpack_B.
  rewrite (proj2 (Z.eqb_eq _ _) Hlen).
  unfold np_array. cbn [data].
  rewrite ?map_map, every_other_map, ?map_map.
  assert (Hcells :
            map (fun x => mul (of_Z (int32 (int32 (int16 (int8 (Z.of_N (Byte.to_N x)) + 128)) - 128)))
                              (lit 0.02)) (every_other wf)
            = decoded wf).
  { unfold decoded. apply map_ext. intros b.
    now rewrite shift_widen_unshift. }
  rewrite Hcells, reshape_Ok; [reflexivity |].
  unfold decoded, len in *. rewrite length_map.
  rewrite (length_every_other wf (Z.to_nat (Terrain.CHUNK self))); lia.
Qed.

Lemma amplitude_short self (wf : bytes) (n : nat) :
  len wf <> 2 * Terrain.CHUNK self ->
  Terrain.amplitude self (Some wf) n = Raise StructError.
Proof.
  intros Hlen. unfold Terrain.amplitude, bind, lift, struct_unpack_B.
  now rewrite (proj2 (Z.eqb_neq _ _) Hlen).
Qed.

Lemma amplitude_None self (n : nat) :
  len (Terrain.xpoints self) * len (Terrain.ypoints self) = 1024 ->
  Terrain.amplitude self None n
  = Ok ({| rows := len (Terrain.xpoints self);
           cols := len (Terrain.ypoints self);
           cells := repeat (of_Z 1) 1024 |}, S n).
Proof.
  intros Hcells. unfold Terrain.amplitude, bind, lift, np_array. cbn [data].
  rewrite reshape_Ok; [reflexivity |].
  unfold len in *. rewrite repeat_length. lia.
Qed.

(** Whatever [amplitude] returns has the shape of the grid. *)
Lemma amplitude_shape self waveform (n n1 : nat) m :
  Terrain.amplitude self waveform n = Ok (m, n1) ->
  filled m /\ rows m = len (Terrain.xpoints self)
  /\ cols m = len (Terrain.ypoints self).
Proof.
  assert (Hre : forall (a : list F) k,
             lift (reshape a (len (Terrain.xpoints self)) (len (Terrain.ypoints self))) k
             = Ok (m, n1) ->
             filled m /\ rows m = len (Terrain.xpoints self)
             /\ cols m = len (Terrain.ypoints self)).
  { intros a k. unfold lift, reshape.
    destruct (Z.eqb_spec (len a) (len (Terrain.xpoints self) * len (Terrain.ypoints self)))
      as [Hl |]; [| discriminate].
    intros [= <- _]. unfold filled. simpl.
    pose proof (len_nonneg (Terrain.xpoints self)).
    pose proof (len_nonneg (Terrain.ypoints self)). auto. }
  unfold Terrain.amplitude. destruct waveform as [wf |].
  - intros Hb. apply bind_Ok in Hb. destruct Hb as (w & k1 & _ & Hb).
    apply bind_Ok in Hb. destruct Hb as (s1 & k2 & _ & Hb).
    apply bind_Ok in Hb. destruct Hb as (s2 & k3 & _ & Hb).
    exact (Hre _ _ Hb).
  - intros Hb. apply bind_Ok in Hb. destruct Hb as (o & k1 & _ & Hb).
    exact (Hre _ _ Hb).
Qed.

(** *** The whole of [mesh] *)

Lemma mesh_Ok self (offset height : F) waveform (n n1 : nat) m :
  Terrain.amplitude self waveform n = Ok (m, n1) ->
  Terrain.mesh self offset height waveform n
  = Ok (({| ident := n1; data := concat (grid_rows self m) |},
         {| ident := S n1; data := fst (Terrain.triangulate (F:=F) (Terrain.nfaces self)) |},
         {| ident := S (S n1); data := snd (Terrain.triangulate (F:=F) (Terrain.nfaces self)) |}),
        S (S (S n1))).
Proof.
  intros Hamp. destruct (amplitude_shape _ _ _ _ _ Hamp) as (Hm & Hr & Hc).
  unfold Terrain.mesh, bind. rewrite Hamp.
  unfold lift. rewrite (vertices_Ok self m Hm Hr Hc).
  destruct (Terrain.triangulate (Terrain.nfaces self)) as [fs cs].
  reflexivity.
Qed.

Lemma mesh_Raise self (offset height : F) waveform (n : nat) (e : exn) :
  Terrain.amplitude self waveform n = Raise e ->
  Terrain.mesh self offset height waveform n = Raise e.
Proof. intros Hamp. unfold Terrain.mesh, bind. now rewrite Hamp. Qed.

(** A call of [mesh] returns exactly when its amplitude step does. *)
Lemma mesh_inv self (offset height : F) waveform (n n' : nat) (r : Terrain.mesh_arrays F) :
  Terrain.mesh self offset height waveform n = Ok (r, n') ->
  exists m n1,
    Terrain.amplitude self waveform n = Ok (m, n1) /\
    n' = S (S (S n1)) /\
    r = ({| ident := n1; data := concat (grid_rows self m) |},
         {| ident := S n1;
            data := fst (Terrain.triangulate (F:=F) (Terrain.nfaces self)) |},
         {| ident := S (S n1);
            data := snd (Terrain.triangulate (F:=F) (Terrain.nfaces self)) |}).
Proof.
  intros Hmesh.
  destruct (Terrain.amplitude self waveform n) as [[m n1] | e] eqn:Hamp.
  - rewrite (mesh_Ok self offset height waveform n n1 m Hamp) in Hmesh.
    injection Hmesh as <- <-. now exists m, n1.
  - rewrite (mesh_Raise self offset height waveform n e Hamp) in Hmesh.
    discriminate.
Qed.

(** *** The triangulation *)

Lemma len_triangulate_faces (nfaces : Z) :
  1 <= nfaces ->
  len (fst (Terrain.triangulate (F:=F) nfaces)) = 2 * (nfaces - 1) ^ 2.
Proof.
  intros Hn. rewrite triangulate_eq. cbn [fst]. unfold len.
  rewrite (length_flat_map_uniform (Z.to_nat (nfaces - 1) * 2)).
  - rewrite length_range. nia.
  - intros yid _. rewrite (length_flat_map_uniform 2).
    + now rewrite length_range.
    + reflexivity.
Qed.

Lemma len_triangulate_colors (nfaces : Z) :
  len (snd (Terrain.triangulate (F:=F) nfaces))
  = len (fst (Terrain.triangulate (F:=F) nfaces)).
Proof.
  rewrite triangulate_eq. cbn [fst snd]. unfold len. f_equal.
  rewrite !(length_flat_map_uniform (Z.to_nat (nfaces - 1) * 2)); try reflexivity;
    intros yid _; now rewrite (length_flat_map_uniform 2), ?length_range.
Qed.

Lemma in_triangulate_faces (nfaces a b c : Z) :
  In (a, b, c) (fst (Terrain.triangulate (F:=F) nfaces)) ->
  exists yid xid,
    0 <= yid < nfaces - 1 /\ 0 <= xid < nfaces - 1 /\
    a = xid + yid * nfaces /\ c = a + nfaces + 1 /\
    (b = a + nfaces \/ b = a + 1).
Proof.
  rewrite triangulate_eq. cbn [fst]. intros Hin.
  apply in_flat_map in Hin. destruct Hin as (yid & Hy & Hin).
  apply in_flat_map in Hin. destruct Hin as (xid & Hx & Hin).
  apply in_range in Hy. apply in_range in Hx.
  exists yid, xid. repeat split; try lia;
    destruct Hin as [[= <- <- <-] | [[= <- <- <-] | []]]; lia.
Qed.

(** *** One frame *)

Lemma update_inv self (wf_data : bytes) (n n' : nat) (self' : Terrain.t F) :
  Terrain.update self wf_data n = Ok (self', n') ->
  exists verts faces colors,
    Terrain.mesh self (Terrain.offset self) (lit 1.5) (Some wf_data) n
    = Ok ((verts, faces, colors), n') /\
    self' = Terrain.set_offset
              (Terrain.set_mountains self
                 {| Terrain.vertexes := verts; Terrain.faces := faces;
                    Terrain.faceColors := Some colors |})
              (sub (Terrain.offset self) (lit 0.059)).
Proof.
  unfold Terrain.update. intros Hup. apply bind_Ok in Hup.
  destruct Hup as ([[verts faces] colors] & n1 & Hmesh & Hret).
  injection Hret as <- <-. now exists verts, faces, colors.
Qed.


Lemma update_shows self (wf_data : bytes) (n : nat) :
  len wf_data = 2 * Terrain.CHUNK self ->
  Terrain.CHUNK self = len (Terrain.xpoints self) * len (Terrain.ypoints self) ->
  exists self' shown colors,
    Terrain.update self wf_data n = Ok (self', (n + 5)%nat)
    /\ Terrain.mountains self' = Some shown
    /\ Terrain.faceColors shown = Some colors
    /\ ident (Terrain.faces shown) = (n + 3)%nat
    /\ ident colors = (n + 4)%nat
    /\ (Terrain.xpoints self' = Terrain.xpoints self
        /\ Terrain.ypoints self' = Terrain.ypoints self
        /\ Terrain.nfaces self' = Terrain.nfaces self
        /\ Terrain.CHUNK self' = Terrain.CHUNK self
        /\ Terrain.stream self' = Terrain.stream self
        /\ Terrain.noise self' = Terrain.noise self).
Proof.
  intros Hlen Hchunk. unfold Terrain.update, bind.
  rewrite (mesh_Ok self _ _ _ n _ _ (amplitude_Some self wf_data n Hlen Hchunk)).
  eexists _, _, _. split; [unfold ret; do 2 f_equal; lia |].
  cbn [Terrain.mountains Terrain.set_offset Terrain.set_mountains].
  split; [reflexivity |]. split; [reflexivity |].
  cbn [ident Terrain.faces].
  split; [lia |]. split; [lia |]. repeat split.
Qed.

End MeshFacts.

(** ** The terrain the constructor builds *)

Lemma started_Ok : Terrain.__init__ probe_noise 0%nat = Ok started.
Proof. vm_compute. reflexivity. Qed.

Lemma first_terrain_grid :
  len (Terrain.xpoints first_terrain) = 32
  /\ len (Terrain.ypoints first_terrain) = 32
  /\ Terrain.nfaces first_terrain = 32
  /\ Terrain.CHUNK first_terrain = 1024.
Proof. vm_compute. repeat split. Qed.

(** The literals of the source, as binary64 numbers. *)
Lemma literals_binary64 :
  (lit 0.059 = 0.059 /\ lit 0.02 = 0.02 /\ lit 1.3 = 1.3 /\ lit 1.5 = 1.5
   /\ lit 0.1 = 0.1 /\ lit 0.3 = 0.3 /\ lit 0.35 = 0.35 /\ lit 0.09 = 0.09)%float.
Proof. vm_compute. repeat split. Qed.

(** ** Calls that are answered *)

Lemma accepted_amplitude {F} `{Numeric F} (self : Terrain.t F) waveform (n : nat) :
  square self -> accepted self waveform ->
  exists m n1, Terrain.amplitude self waveform n = Ok (m, n1).
Proof.
  intros (Hx & Hy & Hc) Hacc. destruct waveform as [wf |]; simpl in Hacc.
  - eexists _, _. apply amplitude_Some; [assumption | now rewrite Hx, Hy].
  - eexists _, _. apply amplitude_None. now rewrite Hx, Hy.
Qed.

Lemma triangulate_face_valid {F} `{Numeric F} (nfaces a b c : Z) :
  In (a, b, c) (fst (Terrain.triangulate (F:=F) nfaces)) ->
  a <> b /\ a <> c /\ b <> c
  /\ 0 <= a < nfaces ^ 2 /\ 0 <= b < nfaces ^ 2 /\ 0 <= c < nfaces ^ 2.
Proof.
  intros Hin. apply in_triangulate_faces in Hin.
  destruct Hin as (yid & xid & Hy & Hx & Ha & Hc & Hb).
  assert (Hrow : yid * nfaces + nfaces <= (nfaces - 1) * nfaces) by nia.
  assert (Hsq : nfaces ^ 2 = nfaces * nfaces) by lia.
  destruct Hb as [Hb | Hb]; repeat split; nia.
Qed.

(** The vertex of a cell, once the height multipliers are known. *)
Lemma mesh_vertex {F} `{Numeric F} (self : Terrain.t F) (offset height : F)
      (waveform : option bytes) (n n' : nat)
      (verts : ndarray (list (Terrain.vertex F)))
      (faces : ndarray (list Terrain.face))
      (colors : ndarray (list (Terrain.color F)))
      (i j : nat) (x y : F) :
  Terrain.mesh self offset height waveform n = Ok ((verts, faces, colors), n') ->
  nth_error (Terrain.xpoints self) i = Some x ->
  nth_error (Terrain.ypoints self) j = Some y ->
  exists m n1 a,
    Terrain.amplitude self waveform n = Ok (m, n1)
    /\ index2 m (Z.of_nat i) (Z.of_nat j) = Ok a
    /\ nth_error (cells m) (i * length (Terrain.ypoints self) + j) = Some a
    /\ nth_error (data verts) (i * length (Terrain.ypoints self) + j)
       = Some (x, y, mul a (Terrain.noise_sample self (Z.of_nat i) (Z.of_nat j))).
Proof.
  intros Hmesh Hx Hy.
  apply mesh_inv in Hmesh. destruct Hmesh as (m & n1 & Hamp & _ & Hr).
  injection Hr as -> _ _. cbn [data].
  destruct (amplitude_shape _ _ _ _ _ Hamp) as (Hm & Hrows & Hcols).
  assert (Hi : (i < length (Terrain.xpoints self))%nat)
    by (apply nth_error_Some; congruence).
  assert (Hj : (j < length (Terrain.ypoints self))%nat)
    by (apply nth_error_Some; congruence).
  destruct (index2_Ok m i j Hm) as (a & Ha & Hcell);
    [unfold len in *; lia | unfold len in *; lia |].
  exists m, n1, a. repeat split; try assumption.
  - rewrite <- Hcell. f_equal. rewrite Hcols. unfold len. lia.
  - rewrite (nth_error_grid self m i j x y Hx Hy). unfold cell. now rewrite Ha.
Qed.

Lemma low_byte_pcm16 (lo hi : byte) : low_byte (pcm16 lo hi) = byte_value lo.
Proof.
  pose proof (byte_value_range lo) as Hlo. pose proof (byte_value_range hi) as Hhi.
  unfold low_byte, pcm16, int16, wrap.
  change (2 ^ (16 - 1)) with 32768. change (2 ^ 16) with 65536.
  pose proof (Z.mod_pos_bound (byte_value lo + 256 * byte_value hi + 32768) 65536 eq_refl).
  pose proof (Z.div_mod (byte_value lo + 256 * byte_value hi + 32768) 65536 ltac:(lia)).
  set (q := (byte_value lo + 256 * byte_value hi + 32768) / 65536) in *.
  set (r := (byte_value lo + 256 * byte_value hi + 32768) mod 65536) in *.
  symmetry. apply (Z.mod_unique _ _ (byte_value hi - 256 * q)); lia.
Qed.

Lemma decoded_cell {F} `{Numeric F} (self : Terrain.t F) (wf : bytes)
      (i j : nat) (lo : byte) :
  len wf = 2 * (len (Terrain.xpoints self) * len (Terrain.ypoints self)) ->
  (i < length (Terrain.xpoints self))%nat ->
  (j < length (Terrain.ypoints self))%nat ->
  nth_error wf (2 * (i * length (Terrain.ypoints self) + j)) = Some lo ->
  index2 {| rows := len (Terrain.xpoints self);
            cols := len (Terrain.ypoints self);
            cells := decoded wf |} (Z.of_nat i) (Z.of_nat j)
  = Ok (mul (of_Z (int8 (byte_value lo))) (lit 0.02)).
Proof.
  intros Hlen Hi Hj Hlo.
  set (m := {| rows := len (Terrain.xpoints self);
               cols := len (Terrain.ypoints self); cells := decoded wf |}).
  assert (Hm : filled m).
  { unfold filled, m. cbn [rows cols cells].
    pose proof (len_nonneg (Terrain.xpoints self)).
    pose proof (len_nonneg (Terrain.ypoints self)).
    repeat split; try assumption.
    unfold decoded, len in *. rewrite length_map.
    rewrite (length_every_other wf
               (length (Terrain.xpoints self) * length (Terrain.ypoints self))); lia. }
  destruct (index2_Ok m i j Hm) as (a & Ha & Hcell);
    [unfold m, len; cbn [rows]; lia | unfold m, len; cbn [cols]; lia |].
  rewrite Ha. f_equal.
  unfold m in Hcell. cbn [cols cells] in Hcell. unfold len in Hcell.
  rewrite Nat2Z.id in Hcell. unfold decoded in Hcell.
  rewrite nth_error_map, nth_error_every_other, Hlo in Hcell.
  now injection Hcell.
Qed.

(** ** The constructor and the frames after it *)

Lemma arange_nth {F} `{Numeric F} (start stop step : F) (l : list F) (i : nat) (x : F) :
  arange start stop step = Ok l ->
  nth_error l i = Some x ->
  x = if Z.of_nat i =? 0 then start
      else if Z.of_nat i =? 1 then add start step
      else add start (mul (of_Z (Z.of_nat i)) (sub (add start step) start)).
Proof.
  unfold arange. destruct (ceil (div (sub stop start) step)) as [length |];
    [| discriminate].
  intros [= <-] Hx. rewrite nth_error_map in Hx.
  destruct (nth_error (range length) i) as [k |] eqn:Hk; [| discriminate].
  assert (Hi : (i < Z.to_nat length)%nat).
  { rewrite <- length_range. apply nth_error_Some. congruence. }
  rewrite (nth_error_range length i Hi) in Hk. injection Hk as <-.
  simpl in Hx. now injection Hx.
Qed.

Lemma configure_inv {F} `{Numeric F} (OpenSimplex : Z -> F -> F -> F) (nsteps : F)
      (self : Terrain.t F) :
  Terrain.configure OpenSimplex nsteps = Ok self ->
  exists points,
    arange (of_Z (-20)) (add (of_Z 20) nsteps) nsteps = Ok points
    /\ Terrain.xpoints self = points /\ Terrain.ypoints self = points
    /\ Terrain.nfaces self = len points
    /\ Terrain.CHUNK self = len points * len points
    /\ Terrain.frames_per_buffer (Terrain.stream self) = len points * len points
    /\ Terrain.offset self = of_Z 0
    /\ Terrain.nsteps self = nsteps
    /\ Terrain.noise self = OpenSimplex 0.
Proof.
  unfold Terrain.configure.
  destruct (arange (of_Z (-20)) (add (of_Z 20) nsteps) nsteps) as [points | e];
    [| discriminate].
  intros [= <-]. exists points. cbn. repeat split.
Qed.

Lemma construct_inv {F} `{Numeric F} (OpenSimplex : Z -> F -> F -> F) (nsteps : F)
      (built : Terrain.t F) (n n' : nat) :
  Terrain.construct OpenSimplex nsteps n = Ok (built, n') ->
  exists self item,
    Terrain.configure OpenSimplex nsteps = Ok self
    /\ built = Terrain.set_mountains self item.
Proof.
  unfold Terrain.construct. intros Hb. apply bind_Ok in Hb.
  destruct Hb as (self & k & Hconf & Hb). unfold lift in Hconf.
  destruct (Terrain.configure OpenSimplex nsteps) as [self0 |]; [| discriminate].
  injection Hconf as -> _.
  apply bind_Ok in Hb. destruct Hb as ([[verts faces] colors] & k' & _ & Hret).
  injection Hret as <- _. now eexists _, _.
Qed.

Lemma construct_Ok {F} `{Numeric F} (OpenSimplex : Z -> F -> F -> F) (nsteps : F)
      (self : Terrain.t F) (n : nat) :
  Terrain.configure OpenSimplex nsteps = Ok self ->
  len (Terrain.xpoints self) * len (Terrain.ypoints self) = 1024 ->
  exists item,
    Terrain.construct OpenSimplex nsteps n
    = Ok (Terrain.set_mountains self item, (n + 4)%nat).
Proof.
  intros Hconf Hcells. unfold Terrain.construct, bind, lift. rewrite Hconf.
  rewrite (mesh_Ok self _ _ None n _ _ (amplitude_None self n Hcells)).
  eexists. unfold ret. do 2 f_equal. lia.
Qed.

Lemma ticks_inv {F} `{Numeric F} (reads : list bytes) :
  forall (self later : Terrain.t F) (n n' : nat),
    Terrain.ticks self reads n = Ok (later, n') ->
    same_grid later self
    /\ Terrain.offset later
       = Nat.iter (length reads) (fun o => sub o (lit 0.059)) (Terrain.offset self).
Proof.
  induction reads as [| wf reads IH]; intros self later n n' Hticks.
  - injection Hticks as <- _. unfold same_grid. repeat split.
  - cbn [Terrain.ticks] in Hticks. apply bind_Ok in Hticks.
    destruct Hticks as (self1 & n1 & Hup & Hticks).
    apply update_inv in Hup. destruct Hup as (v & f & c & _ & ->).
    apply IH in Hticks. destruct Hticks as [(Hx & Hy & Hn & Hc & Hs & Hz) Hoff].
    split; [unfold same_grid; repeat split; assumption |].
    rewrite Hoff. cbn [Terrain.offset Terrain.set_offset length].
    now rewrite Nat.iter_succ_r.
Qed.


(** ** The offset under the two arithmetics *)









(** ** The properties of the specification *)

(** C1, as the code has it: when the offset given to [mesh] is the offset
    the object stores, the height of the vertex of cell [(i, j)] is its
    height multiplier times the noise at [(i / 5 + offset, j / 5 + offset)]:
    the noise is sampled at the indices of the cell. *)
Theorem mesh_height_at_indices {F} `{Numeric F} (self : Terrain.t F)
        (offset height : F) (waveform : option bytes) (n n1 : nat) (m : matrix F) :
  offset = Terrain.offset self ->
  Terrain.amplitude self waveform n = Ok (m, n1) ->
  exists verts faces colors n',
    Terrain.mesh self offset height waveform n = Ok ((verts, faces, colors), n')
    /\ forall (i j : nat) (x y : F),
         nth_error (Terrain.xpoints self) i = Some x ->
         nth_error (Terrain.ypoints self) j = Some y ->
         exists a,
           index2 m (Z.of_nat i) (Z.of_nat j) = Ok a
           /\ nth_error (data verts) (i * length (Terrain.ypoints self) + j)
              = Some (x, y,
                      mul a (Terrain.noise self
                               (add (div (of_Z (Z.of_nat i)) (of_Z 5)) offset)
                               (add (div (of_Z (Z.of_nat j)) (of_Z 5)) offset))).
Proof.
  intros -> Hamp.
  pose proof (mesh_Ok self (Terrain.offset self) height waveform n n1 m Hamp) as Hmesh.
  eexists _, _, _, _. split; [exact Hmesh |].
  intros i j x y Hx Hy.
  destruct (mesh_vertex self _ height waveform n _ _ _ _ i j x y Hmesh Hx Hy)
    as (m' & n1' & a & Hamp' & Ha & _ & Hv).
  assert (Hm : m' = m) by congruence. subst m'.
  exists a. split; [exact Ha | exact Hv].
Qed.

Lemma mesh_height_at_indices_first_frame :
  (0%float = Terrain.offset first_terrain
   /\ Terrain.amplitude first_terrain None 4%nat
      = Ok ({| rows := 32; cols := 32; cells := repeat 1%float 1024 |}, 5%nat))
  /\ exists verts faces colors n',
       Terrain.mesh first_terrain 0%float 1.5%float None 4%nat
       = Ok ((verts, faces, colors), n')
       /\ forall (i j : nat) (x y : float),
            nth_error (Terrain.xpoints first_terrain) i = Some x ->
            nth_error (Terrain.ypoints first_terrain) j = Some y ->
            exists a,
              index2 {| rows := 32; cols := 32; cells := repeat 1%float 1024 |}
                     (Z.of_nat i) (Z.of_nat j) = Ok a
              /\ nth_error (data verts) (i * length (Terrain.ypoints first_terrain) + j)
                 = Some (x, y,
                         mul a (Terrain.noise first_terrain
                                  (add (div (of_Z (Z.of_nat i)) (of_Z 5)) 0%float)
                                  (add (div (of_Z (Z.of_nat j)) (of_Z 5)) 0%float))).
Proof.
  assert (Hoff : 0%float = Terrain.offset first_terrain) by (vm_compute; reflexivity).
  assert (Hamp : Terrain.amplitude first_terrain None 4%nat
                 = Ok ({| rows := 32; cols := 32; cells := repeat 1%float 1024 |}, 5%nat))
    by (vm_compute; reflexivity).
  split; [split; assumption |].
  exact (mesh_height_at_indices first_terrain 0%float 1.5%float None 4%nat 5%nat
           _ Hoff Hamp).
Defined.

(** C1 as the specification words it fails on the first frame: the first
    grid point is (-20, -20), so the specification samples the noise at
    (-4, -4); the code samples it at (0, 0), whatever the noise is.  With a
    noise that returns its first coordinate the height is 0 and not -4. *)
Lemma mesh_height_not_at_coordinates :
  exists verts faces colors n' m n1,
    Terrain.mesh first_terrain (Terrain.offset first_terrain) 1.5%float None 4%nat
    = Ok ((verts, faces, colors), n')
    /\ Terrain.amplitude first_terrain None 4%nat = Ok (m, n1)
    /\ index2 m 0 0 = Ok 1%float
    /\ nth_error (Terrain.xpoints first_terrain) 0 = Some (-20)%float
    /\ nth_error (Terrain.ypoints first_terrain) 0 = Some (-20)%float
    /\ nth_error (data verts) 0 = Some ((-20)%float, (-20)%float, 0%float)
    /\ add (div (of_Z 0) (of_Z 5)) (Terrain.offset first_terrain) = 0%float
    /\ add (div (-20)%float (of_Z 5)) (Terrain.offset first_terrain) = (-4)%float
    /\ mul 1%float (spec_sample first_terrain (-20)%float (-20)%float
                      (Terrain.offset first_terrain)) = (-4)%float
    /\ 0%float <> mul 1%float (spec_sample first_terrain (-20)%float (-20)%float
                                 (Terrain.offset first_terrain)).
Proof.
  assert (Hcells : len (Terrain.xpoints first_terrain)
                   * len (Terrain.ypoints first_terrain) = 1024)
    by (vm_compute; reflexivity).
  pose proof (amplitude_None first_terrain 4%nat Hcells) as Hamp.
  pose proof (mesh_Ok first_terrain (Terrain.offset first_terrain) 1.5%float
                None 4%nat _ _ Hamp) as Hmesh.
  eexists _, _, _, _, _, _.
  split; [exact Hmesh |]. split; [exact Hamp |].
  do 7 (split; [vm_compute; reflexivity |]).
  intros Heq.
  apply (f_equal (fun v => PrimFloat.eqb v 0%float)) in Heq.
  vm_compute in Heq. discriminate Heq.
Qed.

(** C2, as the code has it: every call of [mesh] builds the face list and
    the colour list again, in arrays made during that call; the lists of any
    two calls on grids of the same [nfaces] are equal element by element,
    whatever the offsets and the waveforms, and a later call never returns
    the array objects of an earlier one. *)
Theorem mesh_rebuilds_equal_lists {F} `{Numeric F} (self1 self2 : Terrain.t F)
        (offset1 offset2 height1 height2 : F) (waveform1 waveform2 : option bytes)
        (n1 n1' n2 n2' : nat)
        (verts1 verts2 : ndarray (list (Terrain.vertex F)))
        (faces1 faces2 : ndarray (list Terrain.face))
        (colors1 colors2 : ndarray (list (Terrain.color F))) :
  Terrain.nfaces self1 = Terrain.nfaces self2 ->
  Terrain.mesh self1 offset1 height1 waveform1 n1 = Ok ((verts1, faces1, colors1), n1') ->
  Terrain.mesh self2 offset2 height2 waveform2 n2 = Ok ((verts2, faces2, colors2), n2') ->
  data faces1 = data faces2
  /\ data colors1 = data colors2
  /\ data faces1 = fst (Terrain.triangulate (F:=F) (Terrain.nfaces self1))
  /\ data colors1 = snd (Terrain.triangulate (F:=F) (Terrain.nfaces self1))
  /\ (n1 <= ident faces1 < n1')%nat /\ (n1 <= ident colors1 < n1')%nat
  /\ (n2 <= ident faces2 < n2')%nat /\ (n2 <= ident colors2 < n2')%nat
  /\ ((n1' <= n2)%nat ->
      ident faces1 <> ident faces2 /\ ident colors1 <> ident colors2).
Proof.
  intros Hn Hm1 Hm2.
  assert (Hgrow : forall (self : Terrain.t F) waveform (k k' : nat) (m : matrix F),
             Terrain.amplitude self waveform k = Ok (m, k') -> (k <= k')%nat).
  { intros self waveform k k' m. unfold Terrain.amplitude.
    destruct waveform as [wf |]; intros Hb.
    - apply bind_Ok in Hb. destruct Hb as (w & k1 & Hu & Hb).
      apply bind_Ok in Hb. destruct Hb as (s1 & k2 & Hs1 & Hb).
      apply bind_Ok in Hb. destruct Hb as (s2 & k3 & Hs2 & Hb).
      unfold lift in Hu, Hb. unfold np_array in Hs1, Hs2.
      destruct (struct_unpack_B _ _); [| discriminate].
      destruct (reshape _ _ _); [| discriminate].
      injection Hu as _ <-. injection Hs1 as _ <-. injection Hs2 as _ <-.
      injection Hb as _ <-. lia.
    - apply bind_Ok in Hb. destruct Hb as (o & k1 & Ho & Hb).
      unfold lift in Hb. unfold np_array in Ho.
      destruct (reshape _ _ _); [| discriminate].
      injection Ho as _ <-. injection Hb as _ <-. lia. }
  apply mesh_inv in Hm1. destruct Hm1 as (m1 & k1 & Ha1 & -> & Hr1).
  apply mesh_inv in Hm2. destruct Hm2 as (m2 & k2 & Ha2 & -> & Hr2).
  injection Hr1 as -> -> ->. injection Hr2 as -> -> ->.
  apply Hgrow in Ha1. apply Hgrow in Ha2.
  cbn [ident data]. rewrite Hn. repeat split; try lia.
Qed.

Lemma mesh_rebuilds_equal_lists_two_frames :
  exists verts1 faces1 colors1 n1' verts2 faces2 colors2 n2',
    (Terrain.nfaces first_terrain
     = Terrain.nfaces (Terrain.set_offset first_terrain (-0.059)%float)
     /\ Terrain.mesh first_terrain 0%float 1.5%float (Some silence) 4%nat
        = Ok ((verts1, faces1, colors1), n1')
     /\ Terrain.mesh (Terrain.set_offset first_terrain (-0.059)%float)
                     (-0.059)%float 1.5%float (Some hum) 9%nat
        = Ok ((verts2, faces2, colors2), n2'))
    /\ data faces1 = data faces2
    /\ data colors1 = data colors2
    /\ data faces1 = fst (Terrain.triangulate (F:=float) (Terrain.nfaces first_terrain))
    /\ data colors1 = snd (Terrain.triangulate (F:=float) (Terrain.nfaces first_terrain))
    /\ (4 <= ident faces1 < n1')%nat /\ (4 <= ident colors1 < n1')%nat
    /\ (9 <= ident faces2 < n2')%nat /\ (9 <= ident colors2 < n2')%nat
    /\ ((n1' <= 9)%nat ->
        ident faces1 <> ident faces2 /\ ident colors1 <> ident colors2).
Proof.
  assert (Hn : Terrain.nfaces first_terrain
               = Terrain.nfaces (Terrain.set_offset first_terrain (-0.059)%float))
    by reflexivity.
  assert (Hlen1 : len silence = 2 * Terrain.CHUNK first_terrain)
    by (vm_compute; reflexivity).
  assert (Hlen2 : len hum
                  = 2 * Terrain.CHUNK (Terrain.set_offset first_terrain (-0.059)%float))
    by (vm_compute; reflexivity).
  assert (Hchunk : Terrain.CHUNK first_terrain
                   = len (Terrain.xpoints first_terrain)
                     * len (Terrain.ypoints first_terrain))
    by (vm_compute; reflexivity).
  pose proof (mesh_Ok first_terrain 0%float 1.5%float (Some silence) 4%nat _ _
                (amplitude_Some first_terrain silence 4%nat Hlen1 Hchunk)) as Hm1.
  pose proof (mesh_Ok (Terrain.set_offset first_terrain (-0.059)%float)
                (-0.059)%float 1.5%float (Some hum) 9%nat _ _
                (amplitude_Some (Terrain.set_offset first_terrain (-0.059)%float)
                   hum 9%nat Hlen2 Hchunk)) as Hm2.
  eexists _, _, _, _, _, _, _, _.
  split; [split; [exact Hn | split; [exact Hm1 | exact Hm2]] |].
  exact (mesh_rebuilds_equal_lists first_terrain
           (Terrain.set_offset first_terrain (-0.059)%float)
           0%float (-0.059)%float 1.5%float 1.5%float (Some silence) (Some hum)
           4%nat _ 9%nat _ _ _ _ _ _ _ Hn Hm1 Hm2).
Defined.

(** C2 as the specification words it fails: the arrays the constructor's
    call of [mesh] made are not those the first frame returns, and the second
    frame returns others again; nothing is kept from one call to the next. *)
Lemma mesh_keeps_no_cache :
  exists built self1 n1 self2 n2 shown1 shown2 colors1 colors2,
    Terrain.__init__ probe_noise 0%nat = Ok (first_terrain, 4%nat)
    /\ Terrain.mountains first_terrain = Some built
    /\ Terrain.update first_terrain silence 4%nat = Ok (self1, n1)
    /\ Terrain.mountains self1 = Some shown1
    /\ Terrain.update self1 hum n1 = Ok (self2, n2)
    /\ Terrain.mountains self2 = Some shown2
    /\ Terrain.faceColors shown1 = Some colors1
    /\ Terrain.faceColors shown2 = Some colors2
    /\ ident (Terrain.faces built) <> ident (Terrain.faces shown1)
    /\ ident (Terrain.faces shown1) <> ident (Terrain.faces shown2)
    /\ ident colors1 <> ident colors2.
Proof.
  assert (Hlen1 : len silence = 2 * Terrain.CHUNK first_terrain)
    by (vm_compute; reflexivity).
  assert (Hchunk : Terrain.CHUNK first_terrain
                   = len (Terrain.xpoints first_terrain)
                     * len (Terrain.ypoints first_terrain))
    by (vm_compute; reflexivity).
  destruct (update_shows first_terrain silence 4%nat Hlen1 Hchunk)
    as (self1 & shown1 & colors1 & Hup1 & Hm1 & Hfc1 & Hf1 & Hc1 & Hgrid1).
  destruct Hgrid1 as (Hx1 & Hy1 & _ & Hchunk1 & _).
  assert (Hlen2 : len hum = 2 * Terrain.CHUNK self1)
    by (rewrite Hchunk1; vm_compute; reflexivity).
  assert (Hchunk2 : Terrain.CHUNK self1
                    = len (Terrain.xpoints self1) * len (Terrain.ypoints self1))
    by (rewrite Hchunk1, Hx1, Hy1; exact Hchunk).
  destruct (update_shows self1 hum (4 + 5)%nat Hlen2 Hchunk2)
    as (self2 & shown2 & colors2 & Hup2 & Hm2 & Hfc2 & Hf2 & Hc2 & _).
  eexists _, self1, _, self2, _, shown1, shown2, colors1, colors2.
  split; [exact started_Ok |].
  split; [vm_compute; reflexivity |].
  split; [exact Hup1 |]. split; [exact Hm1 |].
  split; [exact Hup2 |]. split; [exact Hm2 |].
  split; [exact Hfc1 |]. split; [exact Hfc2 |].
  rewrite Hf1, Hf2, Hc1, Hc2. cbn [Terrain.faces ident].
  repeat split; lia.
Qed.

(** C3: a buffer of [2 * CHUNK] bytes decodes to a matrix with the shape of
    the grid, filled row by row; the cell of sample [k] is the low byte of
    that 16-bit little-endian sample, read as a signed 8-bit number, times
    0.02; a buffer of zero bytes gives a matrix of zeros.  The arithmetic is
    binary64's. *)
Theorem amplitude_decodes (self : Terrain.t float) (wf : bytes) (n : nat) :
  len wf = 2 * Terrain.CHUNK self ->
  Terrain.CHUNK self = len (Terrain.xpoints self) * len (Terrain.ypoints self) ->
  exists m n',
    Terrain.amplitude self (Some wf) n = Ok (m, n')
    /\ rows m = len (Terrain.xpoints self)
    /\ cols m = len (Terrain.ypoints self)
    /\ len (cells m) = Terrain.CHUNK self
    /\ (forall (i j : nat) (lo hi : byte),
          (i < length (Terrain.xpoints self))%nat ->
          (j < length (Terrain.ypoints self))%nat ->
          nth_error wf (2 * (i * length (Terrain.ypoints self) + j)) = Some lo ->
          nth_error wf (2 * (i * length (Terrain.ypoints self) + j) + 1) = Some hi ->
          index2 m (Z.of_nat i) (Z.of_nat j)
          = Ok (mul (of_Z (int8 (low_byte (pcm16 lo hi)))) (lit 0.02))
          /\ nth_error (cells m) (i * length (Terrain.ypoints self) + j)
             = Some (mul (of_Z (int8 (low_byte (pcm16 lo hi)))) (lit 0.02)))
    /\ (Forall (eq x00) wf ->
        forall i j : nat,
          (i < length (Terrain.xpoints self))%nat ->
          (j < length (Terrain.ypoints self))%nat ->
          index2 m (Z.of_nat i) (Z.of_nat j) = Ok 0%float).
Proof.
  intros Hlen Hchunk.
  assert (Hlen' : len wf = 2 * (len (Terrain.xpoints self) * len (Terrain.ypoints self)))
    by lia.
  assert (Hnth : forall i j : nat,
             (i < length (Terrain.xpoints self))%nat ->
             (j < length (Terrain.ypoints self))%nat ->
             exists lo, nth_error wf (2 * (i * length (Terrain.ypoints self) + j)) = Some lo).
  { intros i j Hi Hj.
    destruct (nth_error wf (2 * (i * length (Terrain.ypoints self) + j))) as [lo |] eqn:Hlo;
      [now exists lo |].
    apply nth_error_None in Hlo. unfold len in Hlen'. nia. }
  eexists _, _. split; [exact (amplitude_Some self wf n Hlen Hchunk) |].
  cbn [rows cols cells]. split; [reflexivity |]. split; [reflexivity |].
  split; [| split].
  - unfold decoded, len in *. rewrite length_map.
    rewrite (length_every_other wf (Z.to_nat (Terrain.CHUNK self))); lia.
  - intros i j lo hi Hi Hj Hlo Hhi. rewrite low_byte_pcm16.
    pose proof (decoded_cell self wf i j lo Hlen' Hi Hj Hlo) as Hcell.
    split; [exact Hcell |].
    unfold decoded. now rewrite nth_error_map, nth_error_every_other, Hlo.
  - intros Hzero i j Hi Hj. destruct (Hnth i j Hi Hj) as [lo Hlo].
    rewrite (decoded_cell self wf i j lo Hlen' Hi Hj Hlo).
    assert (Hx : x00 = lo).
    { apply nth_error_In in Hlo. rewrite Forall_forall in Hzero. now apply Hzero. }
    subst lo. reflexivity.
Qed.

Lemma amplitude_decodes_silence :
  (len silence = 2 * Terrain.CHUNK first_terrain
   /\ Terrain.CHUNK first_terrain
      = len (Terrain.xpoints first_terrain) * len (Terrain.ypoints first_terrain))
  /\ exists m n',
       Terrain.amplitude first_terrain (Some silence) 4%nat = Ok (m, n')
       /\ rows m = len (Terrain.xpoints first_terrain)
       /\ cols m = len (Terrain.ypoints first_terrain)
       /\ len (cells m) = Terrain.CHUNK first_terrain
       /\ (forall (i j : nat) (lo hi : byte),
             (i < length (Terrain.xpoints first_terrain))%nat ->
             (j < length (Terrain.ypoints first_terrain))%nat ->
             nth_error silence (2 * (i * length (Terrain.ypoints first_terrain) + j))
             = Some lo ->
             nth_error silence (2 * (i * length (Terrain.ypoints first_terrain) + j) + 1)
             = Some hi ->
             index2 m (Z.of_nat i) (Z.of_nat j)
             = Ok (mul (of_Z (int8 (low_byte (pcm16 lo hi)))) (lit 0.02))
             /\ nth_error (cells m) (i * length (Terrain.ypoints first_terrain) + j)
                = Some (mul (of_Z (int8 (low_byte (pcm16 lo hi)))) (lit 0.02)))
       /\ (Forall (eq x00) silence ->
           forall i j : nat,
             (i < length (Terrain.xpoints first_terrain))%nat ->
             (j < length (Terrain.ypoints first_terrain))%nat ->
             index2 m (Z.of_nat i) (Z.of_nat j) = Ok 0%float).
Proof.
  assert (Hlen : len silence = 2 * Terrain.CHUNK first_terrain)
    by (vm_compute; reflexivity).
  assert (Hchunk : Terrain.CHUNK first_terrain
                   = len (Terrain.xpoints first_terrain)
                     * len (Terrain.ypoints first_terrain))
    by (vm_compute; reflexivity).
  split; [split; assumption |].
  exact (amplitude_decodes first_terrain silence 4%nat Hlen Hchunk).
Defined.

(** C4: on a grid of [nfaces] by [nfaces] points, a call of [mesh] returns
    [nfaces^2] vertices and [2 * (nfaces - 1)^2] faces; the three indices of
    a face are pairwise different and lie in [0, nfaces^2); there are as many
    colours as faces. *)
Theorem mesh_sizes {F} `{Numeric F} (self : Terrain.t F) (offset height : F)
        (waveform : option bytes) (n : nat) :
  square self -> 1 <= Terrain.nfaces self -> accepted self waveform ->
  exists verts faces colors n',
    Terrain.mesh self offset height waveform n = Ok ((verts, faces, colors), n')
    /\ len (data verts) = Terrain.nfaces self ^ 2
    /\ len (data faces) = 2 * (Terrain.nfaces self - 1) ^ 2
    /\ (forall a b c, In (a, b, c) (data faces) ->
          a <> b /\ a <> c /\ b <> c
          /\ 0 <= a < Terrain.nfaces self ^ 2
          /\ 0 <= b < Terrain.nfaces self ^ 2
          /\ 0 <= c < Terrain.nfaces self ^ 2)
    /\ len (data colors) = len (data faces).
Proof.
  intros Hsq Hn Hacc.
  destruct (accepted_amplitude self waveform n Hsq Hacc) as (m & n1 & Hamp).
  destruct Hsq as (Hx & Hy & _).
  eexists _, _, _, _.
  split; [exact (mesh_Ok self offset height waveform n n1 m Hamp) |].
  cbn [data]. split; [| split; [| split]].
  - unfold len in *. rewrite length_grid. nia.
  - now apply len_triangulate_faces.
  - intros a b c. apply triangulate_face_valid.
  - apply len_triangulate_colors.
Qed.

Lemma mesh_sizes_first_frame :
  (square first_terrain /\ 1 <= Terrain.nfaces first_terrain
   /\ accepted first_terrain None)
  /\ exists verts faces colors n',
       Terrain.mesh first_terrain 0%float 1.5%float None 4%nat
       = Ok ((verts, faces, colors), n')
       /\ len (data verts) = Terrain.nfaces first_terrain ^ 2
       /\ len (data faces) = 2 * (Terrain.nfaces first_terrain - 1) ^ 2
       /\ (forall a b c, In (a, b, c) (data faces) ->
             a <> b /\ a <> c /\ b <> c
             /\ 0 <= a < Terrain.nfaces first_terrain ^ 2
             /\ 0 <= b < Terrain.nfaces first_terrain ^ 2
             /\ 0 <= c < Terrain.nfaces first_terrain ^ 2)
       /\ len (data colors) = len (data faces).
Proof.
  assert (Hsq : square first_terrain) by (vm_compute; repeat split).
  assert (Hn : 1 <= Terrain.nfaces first_terrain) by (vm_compute; discriminate).
  assert (Hacc : accepted first_terrain None) by (vm_compute; reflexivity).
  split; [repeat split; assumption |].
  exact (mesh_sizes first_terrain 0%float 1.5%float None 4%nat Hsq Hn Hacc).
Defined.

(** C5: whatever the step, the constructor gives [xpoints] and [ypoints]
    the same progression from -20 ([start], [start + step],
    [start + i * delta]), so the grid is square with side [nfaces]; [CHUNK]
    and the buffer size of the audio stream are [len(xpoints) * len(ypoints)
    = nfaces^2]; no frame changes any of them. *)
Theorem grid_couples_chunk {F} `{Numeric F} (OpenSimplex : Z -> F -> F -> F)
        (nsteps : F) (self : Terrain.t F) :
  Terrain.configure OpenSimplex nsteps = Ok self ->
  Terrain.xpoints self = Terrain.ypoints self
  /\ arange (of_Z (-20)) (add (of_Z 20) nsteps) nsteps = Ok (Terrain.xpoints self)
  /\ (forall (i : nat) (x : F),
        nth_error (Terrain.xpoints self) i = Some x ->
        x = if Z.of_nat i =? 0 then of_Z (-20)
            else if Z.of_nat i =? 1 then add (of_Z (-20)) nsteps
            else add (of_Z (-20))
                     (mul (of_Z (Z.of_nat i))
                          (sub (add (of_Z (-20)) nsteps) (of_Z (-20)))))
  /\ len (Terrain.xpoints self) = Terrain.nfaces self
  /\ len (Terrain.ypoints self) = Terrain.nfaces self
  /\ Terrain.CHUNK self = len (Terrain.xpoints self) * len (Terrain.ypoints self)
  /\ Terrain.CHUNK self = Terrain.nfaces self ^ 2
  /\ Terrain.frames_per_buffer (Terrain.stream self) = Terrain.CHUNK self
  /\ (forall (built later : Terrain.t F) (reads : list bytes) (n0 n1 n2 : nat),
        Terrain.construct OpenSimplex nsteps n0 = Ok (built, n1) ->
        Terrain.ticks built reads n1 = Ok (later, n2) ->
        Terrain.xpoints later = Terrain.xpoints self
        /\ Terrain.ypoints later = Terrain.ypoints self
        /\ Terrain.nfaces later = Terrain.nfaces self
        /\ Terrain.CHUNK later = Terrain.CHUNK self
        /\ Terrain.frames_per_buffer (Terrain.stream later) = Terrain.CHUNK later
        /\ Terrain.CHUNK later
           = len (Terrain.xpoints later) * len (Terrain.ypoints later)).
Proof.
  intros Hconf.
  destruct (configure_inv _ _ _ Hconf)
    as (points & Har & Hx & Hy & Hn & Hc & Hf & _).
  rewrite Hx, Hy, Hn, Hc, Hf.
  split; [reflexivity |]. split; [exact Har |].
  split; [intros i x; exact (arange_nth _ _ _ _ i x Har) |].
  split; [reflexivity |]. split; [reflexivity |]. split; [reflexivity |].
  split; [lia |]. split; [reflexivity |].
  intros built later reads n0 n1 n2 Hbuilt Hticks.
  apply construct_inv in Hbuilt. destruct Hbuilt as (self' & item & Hconf' & ->).
  assert (Hs : self' = self) by congruence. subst self'.
  apply ticks_inv in Hticks.
  destruct Hticks as [(Hx' & Hy' & Hn' & Hc' & Hs' & _) _].
  cbn [Terrain.set_mountains Terrain.xpoints Terrain.ypoints Terrain.nfaces
       Terrain.CHUNK Terrain.stream] in *.
  rewrite Hx', Hy', Hn', Hc', Hs', Hx, Hy, Hn, Hc, Hf. repeat split.
Qed.

Lemma grid_couples_chunk_default_step :
  Terrain.configure probe_noise (lit 1.3) = Ok configured
  /\ len (Terrain.xpoints configured) = 32
  /\ Terrain.xpoints configured = Terrain.ypoints configured
  /\ Terrain.CHUNK configured = Terrain.nfaces configured ^ 2
  /\ Terrain.frames_per_buffer (Terrain.stream configured) = Terrain.CHUNK configured.
Proof.
  assert (Hconf : Terrain.configure probe_noise (lit 1.3) = Ok configured)
    by (vm_compute; reflexivity).
  destruct (grid_couples_chunk probe_noise (lit 1.3) configured Hconf)
    as (Hxy & _ & _ & _ & _ & _ & Hchunk & Hstream & _).
  split; [exact Hconf |]. split; [vm_compute; reflexivity |].
  split; [exact Hxy |]. split; [exact Hchunk | exact Hstream].
Defined.



(** C7: called without a waveform on the grid of 1024 cells, [mesh] takes
    the matrix of ones with the shape of the grid as height multipliers, and
    the height of every vertex is 1 times the noise value of its cell. *)
Theorem mesh_without_waveform {F} `{Numeric F} (self : Terrain.t F)
        (offset height : F) (n : nat) :
  len (Terrain.xpoints self) * len (Terrain.ypoints self) = 1024 ->
  exists m n1 verts faces colors n',
    Terrain.amplitude self None n = Ok (m, n1)
    /\ rows m = len (Terrain.xpoints self)
    /\ cols m = len (Terrain.ypoints self)
    /\ Forall (eq (of_Z 1)) (cells m)
    /\ Terrain.mesh self offset height None n = Ok ((verts, faces, colors), n')
    /\ forall (i j : nat) (x y : F),
         nth_error (Terrain.xpoints self) i = Some x ->
         nth_error (Terrain.ypoints self) j = Some y ->
         index2 m (Z.of_nat i) (Z.of_nat j) = Ok (of_Z 1)
         /\ nth_error (data verts) (i * length (Terrain.ypoints self) + j)
            = Some (x, y, mul (of_Z 1)
                              (Terrain.noise_sample self (Z.of_nat i) (Z.of_nat j))).
Proof.
  intros Hcells.
  pose proof (amplitude_None self n Hcells) as Hamp.
  pose proof (mesh_Ok self offset height None n _ _ Hamp) as Hmesh.
  eexists _, _, _, _, _, _.
  split; [exact Hamp |]. cbn [rows cols cells].
  split; [reflexivity |]. split; [reflexivity |].
  split; [apply Forall_forall; intros a Ha; symmetry; exact (repeat_spec _ _ _ Ha) |].
  split; [exact Hmesh |].
  intros i j x y Hx Hy.
  destruct (mesh_vertex self offset height None n _ _ _ _ i j x y Hmesh Hx Hy)
    as (m & n1 & a & Hamp' & Ha & Hcell & Hv).
  assert (Hm : m = {| rows := len (Terrain.xpoints self);
                      cols := len (Terrain.ypoints self);
                      cells := repeat (of_Z 1) 1024 |}) by congruence.
  subst m. unfold cells in Hcell.
  apply nth_error_In, repeat_spec in Hcell. subst a. split; assumption.
Qed.

Lemma mesh_without_waveform_first_frame :
  len (Terrain.xpoints first_terrain) * len (Terrain.ypoints first_terrain) = 1024
  /\ exists m n1 verts faces colors n',
       Terrain.amplitude first_terrain None 4%nat = Ok (m, n1)
       /\ rows m = len (Terrain.xpoints first_terrain)
       /\ cols m = len (Terrain.ypoints first_terrain)
       /\ Forall (eq (of_Z 1)) (cells m)
       /\ Terrain.mesh first_terrain 0%float 1.5%float None 4%nat
          = Ok ((verts, faces, colors), n')
       /\ forall (i j : nat) (x y : float),
            nth_error (Terrain.xpoints first_terrain) i = Some x ->
            nth_error (Terrain.ypoints first_terrain) j = Some y ->
            index2 m (Z.of_nat i) (Z.of_nat j) = Ok (of_Z 1)
            /\ nth_error (data verts) (i * length (Terrain.ypoints first_terrain) + j)
               = Some (x, y, mul (of_Z 1)
                                 (Terrain.noise_sample first_terrain
                                    (Z.of_nat i) (Z.of_nat j))).
Proof.
  assert (Hcells : len (Terrain.xpoints first_terrain)
                   * len (Terrain.ypoints first_terrain) = 1024)
    by (vm_compute; reflexivity).
  split; [exact Hcells |].
  exact (mesh_without_waveform first_terrain 0%float 1.5%float 4%nat Hcells).
Defined.

(** C8: given a buffer whose length is not [2 * CHUNK], [mesh] raises the
    [struct.error] of the unpack of line 88, the first thing it does with the
    buffer; it returns no mesh. *)
Theorem mesh_rejects_other_lengths {F} `{Numeric F} (self : Terrain.t F)
        (offset height : F) (wf : bytes) (n : nat) :
  len wf <> 2 * Terrain.CHUNK self ->
  Terrain.mesh self offset height (Some wf) n = Raise StructError.
Proof.
  intros Hlen. apply mesh_Raise. now apply amplitude_short.
Qed.

Lemma mesh_rejects_short_read :
  len (repeat x00 2046) <> 2 * Terrain.CHUNK first_terrain
  /\ Terrain.mesh first_terrain 0%float 1.5%float (Some (repeat x00 2046)) 4%nat
     = Raise StructError.
Proof.
  assert (Hlen : len (repeat x00 2046) <> 2 * Terrain.CHUNK first_terrain)
    by (vm_compute; discriminate).
  split; [exact Hlen |].
  exact (mesh_rejects_other_lengths first_terrain 0%float 1.5%float
           (repeat x00 2046) 4%nat Hlen).
Defined.



(** C10: the [offset] and [height] arguments of [mesh] do not reach its
    result: with the object and the waveform fixed, any two values of either
    argument give the same vertices, faces and colours (or the same
    exception); the heights are computed from the offset the object stores. *)
Theorem mesh_ignores_offset_and_height {F} `{Numeric F} (self : Terrain.t F)
        (offset1 offset2 height1 height2 : F) (waveform : option bytes) (n : nat) :
  Terrain.mesh self offset1 height1 waveform n
  = Terrain.mesh self offset2 height2 waveform n
  /\ forall (verts : ndarray (list (Terrain.vertex F)))
            (faces : ndarray (list Terrain.face))
            (colors : ndarray (list (Terrain.color F)))
            (n' i j : nat) (x y : F),
       Terrain.mesh self offset1 height1 waveform n = Ok ((verts, faces, colors), n') ->
       nth_error (Terrain.xpoints self) i = Some x ->
       nth_error (Terrain.ypoints self) j = Some y ->
       exists a,
         nth_error (data verts) (i * length (Terrain.ypoints self) + j)
         = Some (x, y,
                 mul a (Terrain.noise self
                          (add (div (of_Z (Z.of_nat i)) (of_Z 5)) (Terrain.offset self))
                          (add (div (of_Z (Z.of_nat j)) (of_Z 5)) (Terrain.offset self)))).
Proof.
  split; [reflexivity |].
  intros verts faces colors n' i j x y Hmesh Hx Hy.
  destruct (mesh_vertex self offset1 height1 waveform n n' verts faces colors
              i j x y Hmesh Hx Hy) as (m & n1 & a & _ & _ & _ & Hv).
  exists a. exact Hv.
Qed.

(** On the first frame: other arguments, the same mesh; another stored
    offset, another first height. *)
Lemma mesh_ignores_arguments_first_frame :
  Terrain.mesh first_terrain 0%float 1.5%float None 4%nat
  = Terrain.mesh first_terrain 7%float 2%float None 4%nat
  /\ first_height (Terrain.mesh first_terrain 0%float 1.5%float None 4%nat)
     = Some 0%float
  /\ first_height (Terrain.mesh (Terrain.set_offset first_terrain 7%float)
                                0%float 1.5%float None 4%nat)
     = Some 7%float.
Proof.
  split.
  - exact (proj1 (mesh_ignores_offset_and_height first_terrain
                    0%float 7%float 1.5%float 2%float None 4%nat)).
  - split; vm_compute; reflexivity.
Defined.

(** ** Further properties of the code *)

(** *** What [mesh] raises *)

Lemma amplitude_misshaped {F} `{Numeric F} (self : Terrain.t F) (wf : bytes) (n : nat) :
  len wf = 2 * Terrain.CHUNK self ->
  Terrain.CHUNK self <> len (Terrain.xpoints self) * len (Terrain.ypoints self) ->
  Terrain.amplitude self (Some wf) n = Raise ValueError.
Proof.
  intros Hlen Hchunk. unfold Terrain.amplitude, bind, lift, struct_unpack_B.
  rewrite (proj2 (Z.eqb_eq _ _) Hlen). unfold np_array. cbn [data].
  unfold reshape.
  replace (len _ =? _) with false; [reflexivity |].
  symmetry. apply Z.eqb_neq. unfold len in *. rewrite !length_map.
  rewrite (length_every_other _ (Z.to_nat (Terrain.CHUNK self)));
    [lia | rewrite !length_map; lia].
Qed.

Lemma amplitude_None_misshaped {F} `{Numeric F} (self : Terrain.t F) (n : nat) :
  len (Terrain.xpoints self) * len (Terrain.ypoints self) <> 1024 ->
  Terrain.amplitude self None n = Raise ValueError.
Proof.
  intros Hcells. unfold Terrain.amplitude, bind, lift, np_array. cbn [data].
  unfold reshape.
  replace (len _ =? _) with false; [reflexivity |].
  symmetry. apply Z.eqb_neq. unfold len in *. rewrite repeat_length. lia.
Qed.

(** X1: [mesh] never raises [IndexError]; it raises [struct.error] exactly
    for a buffer of another length than [2 * CHUNK], and [ValueError]
    exactly when the array to reshape has not as many cells as the grid (the
    1024 ones of the default, or the [CHUNK] decoded samples). *)
Theorem mesh_errors {F} `{Numeric F} (self : Terrain.t F) (offset height : F)
        (waveform : option bytes) (n : nat) :
  Terrain.mesh self offset height waveform n <> Raise IndexError
  /\ (Terrain.mesh self offset height waveform n = Raise StructError
      <-> exists wf, waveform = Some wf /\ len wf <> 2 * Terrain.CHUNK self)
  /\ (Terrain.mesh self offset height waveform n = Raise ValueError
      <-> (waveform = None
           /\ len (Terrain.xpoints self) * len (Terrain.ypoints self) <> 1024)
          \/ (exists wf,
                 waveform = Some wf /\ len wf = 2 * Terrain.CHUNK self
                 /\ Terrain.CHUNK self
                    <> len (Terrain.xpoints self) * len (Terrain.ypoints self))).
Proof.
  destruct waveform as [wf |].
  - destruct (Z.eq_dec (len wf) (2 * Terrain.CHUNK self)) as [Hlen | Hlen].
    + destruct (Z.eq_dec (Terrain.CHUNK self)
                  (len (Terrain.xpoints self) * len (Terrain.ypoints self)))
        as [Hchunk | Hchunk].
      * rewrite (mesh_Ok self offset height (Some wf) n _ _
                   (amplitude_Some self wf n Hlen Hchunk)).
        split; [discriminate |]. split; (split; [discriminate |]).
        -- intros (w & [= <-] & Hw). contradiction.
        -- intros [[Hnone _] | (w & [= <-] & _ & Hw)]; [discriminate | contradiction].
      * rewrite (mesh_Raise self offset height (Some wf) n _
                   (amplitude_misshaped self wf n Hlen Hchunk)).
        split; [discriminate |]. split; split.
        -- discriminate.
        -- intros (w & [= <-] & Hw). contradiction.
        -- intros _. right. now exists wf.
        -- reflexivity.
    + rewrite (mesh_Raise self offset height (Some wf) n _
                 (amplitude_short self wf n Hlen)).
      split; [discriminate |]. split; split.
      * intros _. now exists wf.
      * reflexivity.
      * discriminate.
      * intros [[Hnone _] | (w & [= <-] & Hw & _)]; [discriminate | contradiction].
  - destruct (Z.eq_dec (len (Terrain.xpoints self) * len (Terrain.ypoints self)) 1024)
      as [Hcells | Hcells].
    + rewrite (mesh_Ok self offset height None n _ _ (amplitude_None self n Hcells)).
      split; [discriminate |]. split; (split; [discriminate |]).
      * intros (w & Hw & _). discriminate.
      * intros [[_ Hc] | (w & Hw & _)]; [contradiction | discriminate].
    + rewrite (mesh_Raise self offset height None n _
                 (amplitude_None_misshaped self n Hcells)).
      split; [discriminate |]. split; split.
      * discriminate.
      * intros (w & Hw & _). discriminate.
      * intros _. now left.
      * reflexivity.
Qed.

(** X2: the constructor returns only for a step that gives a grid of 1024
    cells: line 63 calls [mesh] without a waveform, whose default has 1024
    ones, and for any other grid the reshape of line 95 raises. *)
Theorem constructor_needs_1024_cells {F} `{Numeric F}
        (OpenSimplex : Z -> F -> F -> F) (nsteps : F) (self : Terrain.t F) (n : nat) :
  Terrain.configure OpenSimplex nsteps = Ok self ->
  (len (Terrain.xpoints self) * len (Terrain.ypoints self) <> 1024 ->
   Terrain.construct OpenSimplex nsteps n = Raise ValueError)
  /\ (len (Terrain.xpoints self) * len (Terrain.ypoints self) = 1024 ->
      exists built,
        Terrain.construct OpenSimplex nsteps n = Ok (built, (n + 4)%nat)
        /\ Terrain.offset built = Terrain.offset self
        /\ Terrain.xpoints built = Terrain.xpoints self
        /\ Terrain.ypoints built = Terrain.ypoints self
        /\ Terrain.CHUNK built = Terrain.CHUNK self).
Proof.
  intros Hconf. split; intros Hcells.
  - unfold Terrain.construct, bind, lift. rewrite Hconf.
    now rewrite (mesh_Raise self _ _ None n _ (amplitude_None_misshaped self n Hcells)).
  - destruct (construct_Ok OpenSimplex nsteps self n Hconf Hcells) as (item & Hbuilt).
    eexists. split; [exact Hbuilt |]. repeat split.
Qed.

Lemma constructor_fails_for_step_2 :
  Terrain.configure probe_noise (of_Z 2) = Ok coarse
  /\ len (Terrain.xpoints coarse) = 21
  /\ Terrain.construct probe_noise (of_Z 2) 0%nat = Raise ValueError.
Proof.
  assert (Hconf : Terrain.configure probe_noise (of_Z 2) = Ok coarse)
    by (vm_compute; reflexivity).
  assert (Hcells : len (Terrain.xpoints coarse) * len (Terrain.ypoints coarse) <> 1024)
    by (vm_compute; discriminate).
  split; [exact Hconf |]. split; [vm_compute; reflexivity |].
  exact (proj1 (constructor_needs_1024_cells probe_noise (of_Z 2) coarse 0%nat Hconf)
           Hcells).
Defined.


(** *** What the decoder keeps of a sample *)

Lemma amplitude_Some_inv {F} `{Numeric F} (self : Terrain.t F) (wf : bytes)
      (n n' : nat) (m : matrix F) :
  Terrain.amplitude self (Some wf) n = Ok (m, n') ->
  len wf = 2 * Terrain.CHUNK self /\ cells m = decoded wf.
Proof.
  intros Hamp.
  destruct (Z.eq_dec (len wf) (2 * Terrain.CHUNK self)) as [Hlen | Hlen];
    [| rewrite (amplitude_short self wf n Hlen) in Hamp; discriminate].
  destruct (Z.eq_dec (Terrain.CHUNK self)
              (len (Terrain.xpoints self) * len (Terrain.ypoints self)))
    as [Hchunk | Hchunk];
    [| rewrite (amplitude_misshaped self wf n Hlen Hchunk) in Hamp; discriminate].
  rewrite (amplitude_Some self wf n Hlen Hchunk) in Hamp.
  injection Hamp as <- _. now split.
Qed.

(** X3: the decoder reads the low byte of each sample only: two buffers of
    the same length that agree on the bytes at even positions give the same
    mesh (or the same exception), whatever their high bytes are. *)
Theorem mesh_ignores_high_bytes {F} `{Numeric F} (self : Terrain.t F)
        (offset height : F) (wf1 wf2 : bytes) (n : nat) :
  len wf1 = len wf2 ->
  every_other wf1 = every_other wf2 ->
  Terrain.mesh self offset height (Some wf1) n
  = Terrain.mesh self offset height (Some wf2) n.
Proof.
  intros Hlen Heven.
  assert (Hamp : Terrain.amplitude self (Some wf1) n
                 = Terrain.amplitude self (Some wf2) n).
  { unfold Terrain.amplitude, bind, lift, struct_unpack_B. rewrite Hlen.
    destruct (len wf2 =? 2 * Terrain.CHUNK self); [| reflexivity].
    unfold np_array. cbn [data].
    now rewrite !every_other_map, Heven. }
  unfold Terrain.mesh, bind. now rewrite Hamp.
Qed.

Lemma loud_samples_decode_as_silence :
  (len rumble = len silence /\ every_other rumble = every_other silence)
  /\ pcm16 x00 x7f = 32512
  /\ Terrain.mesh first_terrain 0%float 1.5%float (Some rumble) 4%nat
     = Terrain.mesh first_terrain 0%float 1.5%float (Some silence) 4%nat.
Proof.
  assert (Hlen : len rumble = len silence) by (vm_compute; reflexivity).
  assert (Heven : every_other rumble = every_other silence)
    by (vm_compute; reflexivity).
  split; [split; assumption |]. split; [vm_compute; reflexivity |].
  exact (mesh_ignores_high_bytes first_terrain 0%float 1.5%float rumble silence
           4%nat Hlen Heven).
Defined.

(** X4: under binary64 arithmetic every height multiplier decoded from a
    buffer lies between -2.56 and 2.56. *)
Theorem decoded_amplitudes_bounded (self : Terrain.t float) (wf : bytes)
        (n n' : nat) (m : matrix float) :
  Terrain.amplitude self (Some wf) n = Ok (m, n') ->
  Forall (fun c => PrimFloat.leb (PrimFloat.abs c) 2.56 = true) (cells m).
Proof.
  intros Hamp. apply amplitude_Some_inv in Hamp. destruct Hamp as [_ ->].
  unfold decoded. apply Forall_forall. intros c Hc.
  apply in_map_iff in Hc. destruct Hc as (b & <- & _).
  destruct b; vm_compute; reflexivity.
Qed.

Lemma decoded_hum_bounded :
  Terrain.amplitude first_terrain (Some hum) 4%nat
  = Ok ({| rows := 32; cols := 32; cells := decoded hum |}, 6%nat)
  /\ Forall (fun c => PrimFloat.leb (PrimFloat.abs c) 2.56 = true)
            (decoded (F:=float) hum).
Proof.
  assert (Hamp : Terrain.amplitude first_terrain (Some hum) 4%nat
                 = Ok ({| rows := 32; cols := 32; cells := decoded hum |}, 6%nat))
    by (vm_compute; reflexivity).
  split; [exact Hamp |].
  exact (decoded_amplitudes_bounded first_terrain hum 4%nat 6%nat _ Hamp).
Defined.

(** *** Where the vertices lie *)

Lemma map_combine_snd {A B C} (h : B -> C) (idx : list A) (l : list B) :
  length idx = length l ->
  map (fun p : A * B => h (snd p)) (combine idx l) = map h l.
Proof.
  revert idx. induction l as [| b l IH]; intros [| i idx] Hlen;
    simpl in *; try discriminate; try reflexivity.
  f_equal. apply IH. lia.
Qed.

Lemma ground_grid {F} `{Numeric F} (self : Terrain.t F) (m : matrix F) :
  map ground (concat (grid_rows self m))
  = list_prod (Terrain.xpoints self) (Terrain.ypoints self).
Proof.
  unfold grid_rows. rewrite concat_map, map_map.
  assert (Hrow : forall p : Z * F,
             map ground
                 (let '(xid, x) := p in
                  map (fun '(yid, y) =>
                         (x, y, mul (cell m xid yid)
                                    (Terrain.noise_sample self xid yid)))
                      (enumerate (Terrain.ypoints self)))
             = map (fun y => (snd p, y)) (Terrain.ypoints self)).
  { intros [xid x]. rewrite map_map. cbn [snd].
    rewrite <- (map_combine_snd (fun y => (x, y)) (range (len (Terrain.ypoints self)))
                  (Terrain.ypoints self) (range_len _)).
    apply map_ext. intros [yid y]. reflexivity. }
  rewrite (map_ext _ _ Hrow).
  unfold enumerate.
  rewrite (map_combine_snd (fun x => map (fun y => (x, y)) (Terrain.ypoints self))
             (range (len (Terrain.xpoints self))) (Terrain.xpoints self) (range_len _)).
  induction (Terrain.xpoints self) as [| x xs IH]; simpl; [reflexivity |].
  now rewrite IH.
Qed.

(** X5: the vertices of a mesh lie on the grid, one for each pair of an x
    and a y coordinate, x first: their ground positions are the product of
    [xpoints] and [ypoints].  Two meshes of the same grid differ in heights
    only. *)
Theorem mesh_moves_heights_only {F} `{Numeric F} (self1 self2 : Terrain.t F)
        (offset1 offset2 height1 height2 : F) (waveform1 waveform2 : option bytes)
        (n1 n1' n2 n2' : nat)
        (verts1 verts2 : ndarray (list (Terrain.vertex F)))
        (faces1 faces2 : ndarray (list Terrain.face))
        (colors1 colors2 : ndarray (list (Terrain.color F))) :
  Terrain.xpoints self1 = Terrain.xpoints self2 ->
  Terrain.ypoints self1 = Terrain.ypoints self2 ->
  Terrain.mesh self1 offset1 height1 waveform1 n1 = Ok ((verts1, faces1, colors1), n1') ->
  Terrain.mesh self2 offset2 height2 waveform2 n2 = Ok ((verts2, faces2, colors2), n2') ->
  map ground (data verts1) = list_prod (Terrain.xpoints self1) (Terrain.ypoints self1)
  /\ map ground (data verts1) = map ground (data verts2).
Proof.
  intros Hx Hy Hm1 Hm2.
  apply mesh_inv in Hm1. destruct Hm1 as (m1 & k1 & _ & _ & Hr1).
  apply mesh_inv in Hm2. destruct Hm2 as (m2 & k2 & _ & _ & Hr2).
  injection Hr1 as -> _ _. injection Hr2 as -> _ _. cbn [data].
  rewrite !ground_grid. split; [reflexivity | now rewrite Hx, Hy].
Qed.

Lemma two_frames_share_the_ground :
  exists verts1 faces1 colors1 n1' verts2 faces2 colors2 n2',
    (Terrain.mesh first_terrain 0%float 1.5%float (Some silence) 4%nat
     = Ok ((verts1, faces1, colors1), n1')
     /\ Terrain.mesh (Terrain.set_offset first_terrain (-0.059)%float)
                     (-0.059)%float 1.5%float (Some hum) 9%nat
        = Ok ((verts2, faces2, colors2), n2'))
    /\ map ground (data verts1) = map ground (data verts2).
Proof.
  assert (Hlen1 : len silence = 2 * Terrain.CHUNK first_terrain)
    by (vm_compute; reflexivity).
  assert (Hlen2 : len hum
                  = 2 * Terrain.CHUNK (Terrain.set_offset first_terrain (-0.059)%float))
    by (vm_compute; reflexivity).
  assert (Hchunk : Terrain.CHUNK first_terrain
                   = len (Terrain.xpoints first_terrain)
                     * len (Terrain.ypoints first_terrain))
    by (vm_compute; reflexivity).
  pose proof (mesh_Ok first_terrain 0%float 1.5%float (Some silence) 4%nat _ _
                (amplitude_Some first_terrain silence 4%nat Hlen1 Hchunk)) as Hm1.
  pose proof (mesh_Ok (Terrain.set_offset first_terrain (-0.059)%float)
                (-0.059)%float 1.5%float (Some hum) 9%nat _ _
                (amplitude_Some (Terrain.set_offset first_terrain (-0.059)%float)
                   hum 9%nat Hlen2 Hchunk)) as Hm2.
  eexists _, _, _, _, _, _, _, _.
  split; [split; [exact Hm1 | exact Hm2] |].
  exact (proj2 (mesh_moves_heights_only first_terrain
                  (Terrain.set_offset first_terrain (-0.059)%float)
                  0%float (-0.059)%float 1.5%float 1.5%float (Some silence) (Some hum)
                  4%nat _ 9%nat _ _ _ _ _ _ _ eq_refl eq_refl Hm1 Hm2)).
Defined.

(** *** The triangles *)

Lemma nth_error_flat_map_uniform {A B} (c : nat) (f : A -> list B) (l : list A)
      (i j : nat) (x : A) :
  (forall y, In y l -> length (f y) = c) ->
  nth_error l i = Some x -> (j < c)%nat ->
  nth_error (flat_map f l) (i * c + j) = nth_error (f x) j.
Proof.
  intros Hlen Hx Hj. rewrite flat_map_concat_map.
  apply nth_error_concat_uniform; [| now rewrite nth_error_map, Hx | exact Hj].
  apply Forall_forall. intros r Hr. apply in_map_iff in Hr.
  destruct Hr as (y & <- & Hy). now apply Hlen.
Qed.

Lemma nth_error_quads {B} (quad : Z -> Z -> list B) (nfaces : Z)
      (yid xid r : nat) :
  (forall y x, length (quad y x) = 2%nat) ->
  Z.of_nat yid < nfaces - 1 -> Z.of_nat xid < nfaces - 1 -> (r < 2)%nat ->
  nth_error (flat_map (fun y => flat_map (quad y) (range (nfaces - 1)))
                      (range (nfaces - 1)))
            (2 * (yid * Z.to_nat (nfaces - 1) + xid) + r)
  = nth_error (quad (Z.of_nat yid) (Z.of_nat xid)) r.
Proof.
  intros Hquad Hy Hx Hr.
  replace (2 * (yid * Z.to_nat (nfaces - 1) + xid) + r)%nat
    with (yid * (Z.to_nat (nfaces - 1) * 2) + (xid * 2 + r))%nat by lia.
  rewrite (nth_error_flat_map_uniform (Z.to_nat (nfaces - 1) * 2) _ _ yid
             (xid * 2 + r) (Z.of_nat yid)).
  - apply nth_error_flat_map_uniform;
      [intros; apply Hquad | apply nth_error_range; lia | exact Hr].
  - intros y _. rewrite (length_flat_map_uniform 2);
      [now rewrite length_range | intros; apply Hquad].
  - apply nth_error_range. lia.
  - nia.
Qed.

(** X6: the face list goes through the quads row by row; quad [(yid, xid)]
    has its two triangles at positions [2q] and [2q + 1] for
    [q = yid * (nfaces - 1) + xid]: the first through the corner below, the
    second through the corner beside, both along the diagonal; the colour
    list has the first shade at every even position and the second at every
    odd one. *)
Theorem faces_in_quad_order {F} `{Numeric F} (nfaces : Z) (yid xid : nat) :
  Z.of_nat yid < nfaces - 1 -> Z.of_nat xid < nfaces - 1 ->
  nth_error (fst (Terrain.triangulate (F:=F) nfaces))
            (2 * (yid * Z.to_nat (nfaces - 1) + xid))
  = Some (Z.of_nat xid + Z.of_nat yid * nfaces,
          Z.of_nat xid + Z.of_nat yid * nfaces + nfaces,
          Z.of_nat xid + Z.of_nat yid * nfaces + nfaces + 1)
  /\ nth_error (fst (Terrain.triangulate (F:=F) nfaces))
               (2 * (yid * Z.to_nat (nfaces - 1) + xid) + 1)
     = Some (Z.of_nat xid + Z.of_nat yid * nfaces,
             Z.of_nat xid + Z.of_nat yid * nfaces + 1,
             Z.of_nat xid + Z.of_nat yid * nfaces + nfaces + 1)
  /\ nth_error (snd (Terrain.triangulate (F:=F) nfaces))
               (2 * (yid * Z.to_nat (nfaces - 1) + xid))
     = Some (lit 0.1, lit 0.3, of_Z 0, lit 0.35)
  /\ nth_error (snd (Terrain.triangulate (F:=F) nfaces))
               (2 * (yid * Z.to_nat (nfaces - 1) + xid) + 1)
     = Some (lit 0.09, lit 0.3, of_Z 0, lit 0.35).
Proof.
  intros Hy Hx. rewrite triangulate_eq. cbn [fst snd].
  pose proof (nth_error_quads (quad_faces nfaces) nfaces yid xid 0
                (fun _ _ => eq_refl) Hy Hx ltac:(lia)) as Hf0.
  pose proof (nth_error_quads (quad_faces nfaces) nfaces yid xid 1
                (fun _ _ => eq_refl) Hy Hx ltac:(lia)) as Hf1.
  pose proof (nth_error_quads (fun _ _ : Z => quad_colors (F:=F)) nfaces yid xid 0
                (fun _ _ => eq_refl) Hy Hx ltac:(lia)) as Hc0.
  pose proof (nth_error_quads (fun _ _ : Z => quad_colors (F:=F)) nfaces yid xid 1
                (fun _ _ => eq_refl) Hy Hx ltac:(lia)) as Hc1.
  rewrite Nat.add_0_r in Hf0, Hc0.
  rewrite Hf0, Hf1, Hc0, Hc1. repeat split.
Qed.

Lemma faces_of_the_second_row :
  (Z.of_nat 1 < 32 - 1 /\ Z.of_nat 2 < 32 - 1)
  /\ nth_error (fst (Terrain.triangulate (F:=float) 32)) 66 = Some (34, 66, 67)
  /\ nth_error (fst (Terrain.triangulate (F:=float) 32)) 67 = Some (34, 35, 67).
Proof.
  assert (Hy : Z.of_nat 1 < 32 - 1) by (vm_compute; reflexivity).
  assert (Hx : Z.of_nat 2 < 32 - 1) by (vm_compute; reflexivity).
  split; [split; assumption |].
  destruct (faces_in_quad_order (F:=float) 32 1 2 Hy Hx) as (H0 & H1 & _).
  split; [exact H0 | exact H1].
Defined.

(** X7: for any [nfaces], also 0, 1 or a negative number, the face list has
    [2 * max(0, nfaces - 1)^2] triangles and the colour list as many
    colours; a grid of one point or none has no face. *)
Theorem faces_of_any_grid {F} `{Numeric F} (nfaces : Z) :
  len (fst (Terrain.triangulate (F:=F) nfaces)) = 2 * Z.max 0 (nfaces - 1) ^ 2
  /\ len (snd (Terrain.triangulate (F:=F) nfaces)) = 2 * Z.max 0 (nfaces - 1) ^ 2
  /\ (nfaces <= 1 -> Terrain.triangulate (F:=F) nfaces = ([], [])).
Proof.
  assert (Hfaces : len (fst (Terrain.triangulate (F:=F) nfaces))
                   = 2 * Z.max 0 (nfaces - 1) ^ 2).
  { rewrite triangulate_eq. cbn [fst]. unfold len.
    rewrite (length_flat_map_uniform (Z.to_nat (nfaces - 1) * 2)).
    - rewrite length_range. nia.
    - intros yid _. rewrite (length_flat_map_uniform 2);
        [now rewrite length_range | reflexivity]. }
  split; [exact Hfaces |]. split; [now rewrite len_triangulate_colors |].
  intros Hn. rewrite triangulate_eq.
  replace (range (nfaces - 1)) with (@nil Z); [reflexivity |].
  unfold range. replace (Z.to_nat (nfaces - 1)) with 0%nat by lia. reflexivity.
Qed.

Lemma NoDup_flat_map_disjoint {A B} (f : A -> list B) (l : list A) :
  NoDup l ->
  (forall x, In x l -> NoDup (f x)) ->
  (forall x y b, In x l -> In y l -> In b (f x) -> In b (f y) -> x = y) ->
  NoDup (flat_map f l).
Proof.
  induction l as [| a l IH]; intros Hl Hf Hd; simpl; [constructor |].
  apply NoDup_cons_iff in Hl. destruct Hl as [Ha Hl].
  apply NoDup_app.
  - apply Hf. now left.
  - apply IH; [exact Hl | intros x Hx; apply Hf; now right |].
    intros x y b Hx Hy. apply Hd; now right.
  - intros b Hb Hin. apply in_flat_map in Hin. destruct Hin as (y & Hy & Hby).
    assert (Heq : a = y) by (apply (Hd a y b); [now left | now right | assumption ..]).
    subst y. contradiction.
Qed.

Lemma NoDup_range (n : Z) : NoDup (range n).
Proof.
  unfold range. apply NoDup_map_NoDup_ForallPairs; [| apply seq_NoDup].
  intros a b _ _. apply Nat2Z.inj.
Qed.

(** X8: no triangle is listed twice. *)
Theorem faces_never_repeat {F} `{Numeric F} (nfaces : Z) :
  NoDup (fst (Terrain.triangulate (F:=F) nfaces)).
Proof.
  rewrite triangulate_eq. cbn [fst].
  apply NoDup_flat_map_disjoint; [apply NoDup_range | |].
  - intros yid Hy. apply NoDup_flat_map_disjoint; [apply NoDup_range | |].
    + intros xid Hx. apply in_range in Hx. unfold quad_faces.
      constructor; [| constructor; [intros [] | constructor]].
      intros [Heq | []]. injection Heq. lia.
    + intros x y [[a b] c] _ _ Hbx Hby. unfold quad_faces in Hbx, Hby.
      destruct Hbx as [Hbx | [Hbx | []]]; destruct Hby as [Hby | [Hby | []]];
        injection Hbx; injection Hby; lia.
  - intros yid yid' [[a b] c] Hy Hy' Hin Hin'.
    apply in_range in Hy. apply in_range in Hy'.
    apply in_flat_map in Hin. destruct Hin as (xid & Hx & Hb).
    apply in_flat_map in Hin'. destruct Hin' as (xid' & Hx' & Hb').
    apply in_range in Hx. apply in_range in Hx'.
    assert (Ha : a = xid + yid * nfaces)
      by (destruct Hb as [Hb | [Hb | []]]; injection Hb; lia).
    assert (Ha' : a = xid' + yid' * nfaces)
      by (destruct Hb' as [Hb' | [Hb' | []]]; injection Hb'; lia).
    nia.
Qed.

(** X9: every triangle of a mesh spans one cell of the grid: on a square
    grid its first vertex stands at a grid point [(xpoints[r], ypoints[c])],
    its last at the opposite corner [(xpoints[r+1], ypoints[c+1])] and its
    middle one at one of the two other corners of that cell. *)
Theorem triangles_span_grid_cells {F} `{Numeric F} (self : Terrain.t F)
        (offset height : F) (waveform : option bytes) (n n' : nat)
        (verts : ndarray (list (Terrain.vertex F)))
        (faces : ndarray (list Terrain.face))
        (colors : ndarray (list (Terrain.color F)))
        (a b c : Z) :
  square self ->
  Terrain.mesh self offset height waveform n = Ok ((verts, faces, colors), n') ->
  In (a, b, c) (data faces) ->
  exists (row col : nat) (x0 x1 y0 y1 za zb zc : F),
    nth_error (Terrain.xpoints self) row = Some x0
    /\ nth_error (Terrain.xpoints self) (S row) = Some x1
    /\ nth_error (Terrain.ypoints self) col = Some y0
    /\ nth_error (Terrain.ypoints self) (S col) = Some y1
    /\ nth_error (data verts) (Z.to_nat a) = Some (x0, y0, za)
    /\ nth_error (data verts) (Z.to_nat c) = Some (x1, y1, zc)
    /\ (nth_error (data verts) (Z.to_nat b) = Some (x1, y0, zb)
        \/ nth_error (data verts) (Z.to_nat b) = Some (x0, y1, zb)).
Proof.
  intros (Hlx & Hly & _) Hmesh Hin.
  assert (Hfaces : data faces = fst (Terrain.triangulate (F:=F) (Terrain.nfaces self))).
  { pose proof Hmesh as Hinv. apply mesh_inv in Hinv.
    destruct Hinv as (m & n1 & _ & _ & Hr). now injection Hr as _ -> _. }
  rewrite Hfaces in Hin. apply in_triangulate_faces in Hin.
  destruct Hin as (yid & xid & Hy & Hx & Ha & Hc & Hb).
  set (row := Z.to_nat yid). set (col := Z.to_nat xid).
  assert (Hpoint : forall (l : list F) (k : nat),
             Z.of_nat k < len l -> exists v, nth_error l k = Some v).
  { intros l k Hk. destruct (nth_error l k) as [v |] eqn:Hv; [now exists v |].
    apply nth_error_None in Hv. unfold len in Hk. lia. }
  destruct (Hpoint (Terrain.xpoints self) row) as [x0 Hx0]; [unfold row; lia |].
  destruct (Hpoint (Terrain.xpoints self) (S row)) as [x1 Hx1]; [unfold row; lia |].
  destruct (Hpoint (Terrain.ypoints self) col) as [y0 Hy0]; [unfold col; lia |].
  destruct (Hpoint (Terrain.ypoints self) (S col)) as [y1 Hy1]; [unfold col; lia |].
  assert (Hwidth : length (Terrain.ypoints self) = Z.to_nat (Terrain.nfaces self))
    by (unfold len in Hly; lia).
  destruct (mesh_vertex self offset height waveform n n' verts faces colors
              row col x0 y0 Hmesh Hx0 Hy0) as (_ & _ & a00 & _ & _ & _ & Hv00).
  destruct (mesh_vertex self offset height waveform n n' verts faces colors
              (S row) (S col) x1 y1 Hmesh Hx1 Hy1) as (_ & _ & a11 & _ & _ & _ & Hv11).
  destruct (mesh_vertex self offset height waveform n n' verts faces colors
              (S row) col x1 y0 Hmesh Hx1 Hy0) as (_ & _ & a10 & _ & _ & _ & Hv10).
  destruct (mesh_vertex self offset height waveform n n' verts faces colors
              row (S col) x0 y1 Hmesh Hx0 Hy1) as (_ & _ & a01 & _ & _ & _ & Hv01).
  rewrite Hwidth in Hv00, Hv11, Hv10, Hv01.
  replace (row * Z.to_nat (Terrain.nfaces self) + col)%nat with (Z.to_nat a)
    in Hv00 by (unfold row, col; nia).
  replace (S row * Z.to_nat (Terrain.nfaces self) + S col)%nat with (Z.to_nat c)
    in Hv11 by (unfold row, col; nia).
  destruct Hb as [Hb | Hb].
  - replace (S row * Z.to_nat (Terrain.nfaces self) + col)%nat with (Z.to_nat b)
      in Hv10 by (unfold row, col; nia).
    eexists row, col, x0, x1, y0, y1, _, _, _.
    repeat split; try eassumption. left. exact Hv10.
  - replace (row * Z.to_nat (Terrain.nfaces self) + S col)%nat with (Z.to_nat b)
      in Hv01 by (unfold row, col; nia).
    eexists row, col, x0, x1, y0, y1, _, _, _.
    repeat split; try eassumption. right. exact Hv01.
Qed.

(** *** The grid under exact arithmetic *)










Lemma first_triangle_spans_a_cell :
  exists verts faces colors n',
    (square first_terrain
     /\ Terrain.mesh first_terrain 0%float 1.5%float None 4%nat
        = Ok ((verts, faces, colors), n')
     /\ In (0, 32, 33) (data faces))
    /\ exists (row col : nat) (x0 x1 y0 y1 za zb zc : float),
         nth_error (Terrain.xpoints first_terrain) row = Some x0
         /\ nth_error (Terrain.xpoints first_terrain) (S row) = Some x1
         /\ nth_error (Terrain.ypoints first_terrain) col = Some y0
         /\ nth_error (Terrain.ypoints first_terrain) (S col) = Some y1
         /\ nth_error (data verts) (Z.to_nat 0) = Some (x0, y0, za)
         /\ nth_error (data verts) (Z.to_nat 33) = Some (x1, y1, zc)
         /\ (nth_error (data verts) (Z.to_nat 32) = Some (x1, y0, zb)
             \/ nth_error (data verts) (Z.to_nat 32) = Some (x0, y1, zb)).
Proof.
  assert (Hsq : square first_terrain) by (vm_compute; repeat split).
  assert (Hcells : len (Terrain.xpoints first_terrain)
                   * len (Terrain.ypoints first_terrain) = 1024)
    by (vm_compute; reflexivity).
  pose proof (mesh_Ok first_terrain 0%float 1.5%float None 4%nat _ _
                (amplitude_None first_terrain 4%nat Hcells)) as Hmesh.
  assert (Hin : In (0, 32, 33)
                   (fst (Terrain.triangulate (F:=float) (Terrain.nfaces first_terrain))))
    by (apply (nth_error_In _ 0); vm_compute; reflexivity).
  eexists _, _, _, _. split; [split; [exact Hsq | split; [exact Hmesh | exact Hin]] |].
  exact (triangles_span_grid_cells first_terrain 0%float 1.5%float None 4%nat _
           _ _ _ 0 32 33 Hsq Hmesh Hin).
Defined.

(** *** A run of frames *)






